(** * Xwayland supervisor of the compositor (compositor/xwayland.c)

    A shallow embedding of [handle_sigusr1], [spawn_xserver],
    [xserver_cleanup] and [wet_load_xwayland].  The C functions talk to the
    operating system, to libwayland's event loop and to the xwayland module
    through calls whose results the code cannot predict; the embedding takes
    those results as inputs (an environment record per function), threads the
    process-visible resources (open descriptors, armed signal sources, watched
    processes, live heap blocks) through a state monad, and records every
    external call in a trace, in program order. *)

From Stdlib Require Import ZArith DecimalString DecimalFacts DecimalPos DecimalZ.
From stdpp Require Import base list gmap strings.

Local Open Scope Z_scope.

(** ** Strings the C code formats *)

Definition nl : string := String (Ascii.ascii_of_nat 10) EmptyString.

(** [printf]'s ["%d"] conversion of an [int]. *)
Definition fmt_d (v : Z) : string := NilZero.string_of_int (Z.to_int v).

(** [snprintf(buf, size, "%d", v)]: at most [size - 1] characters are stored
    before the terminating NUL. *)
Definition snprintf_d (size : nat) (v : Z) : string :=
  String.substring 0 (size - 1) (fmt_d v).

(** ** The argument vector (lines 130-157) *)

Definition ARGS_COUNT : nat := 13.

(** A [const char *] slot of an array: [None] is [NULL]. *)
Abbreviation cstr := (option string).

(** The strings [execv] sees: the slots before the first [NULL]. *)
Fixpoint c_vector (a : list cstr) : list string :=
  match a with
  | Some s :: rest => s :: c_vector rest
  | _ => []
  end.

(** The array initializer of [argv]. *)
Definition argv_init (xserver display unix_fd_str wm_fd_str : string)
  : list cstr :=
  [ Some xserver;                          (* 0 *)
    Some display;                          (* 1 *)
    Some "-rootless";                      (* 2 *)
    Some "-core";                          (* 3 *)
    Some "-listen"; Some unix_fd_str;      (* 4, 5 *)
    Some "-wm"; Some wm_fd_str;            (* 6, 7 *)
    Some "-terminate";                     (* 8 *)
    None; None;                            (* 9, 10 *)
    None;                                  (* 11 *)
    None ].                                (* 12 *)

(** [argv[argc++] = s], as a pair of the new array and the new [argc]. *)
Definition push_arg (s : string) (st : list cstr * nat) : list cstr * nat :=
  (<[ st.2 := Some s ]> st.1, S st.2).

(** Lines 132-157: the initializer, the [abstract_fd] branch, the
    [disable_ac] branch and the [assert].  [None] is the failed assertion. *)
Definition build_argv (xserver display unix_fd_str wm_fd_str : string)
    (abstract_fd : Z) (abstract_fd_str : string) (disable_ac : bool)
  : option (list cstr * nat) :=
  let st := (argv_init xserver display unix_fd_str wm_fd_str, 9%nat) in
  let st :=
    if abstract_fd =? 0
    then push_arg "local" (push_arg "-nolisten" st)
    else push_arg abstract_fd_str (push_arg "-listen" st) in
  let st := if disable_ac then push_arg "-ac" st else st in
  if (st.2 <=? ARGS_COUNT)%nat then Some st else None.

(** The nine entries every vector starts with. *)
Definition fixed_args (xserver display unix_fd_str wm_fd_str : string)
  : list string :=
  [ xserver; display; "-rootless"; "-core"; "-listen"; unix_fd_str;
    "-wm"; wm_fd_str; "-terminate" ].

Definition listen_args (abstract_fd : Z) (abstract_fd_str : string)
  : list string :=
  if abstract_fd =? 0 then ["-nolisten"; "local"]
  else ["-listen"; abstract_fd_str].

Definition ac_args (disable_ac : bool) : list string :=
  if disable_ac then ["-ac"] else [].

(** ** Data model *)

(** A C pointer to an object this file does not look into: [None] is
    [NULL]. *)
Abbreviation ptr := (option nat).

(** The functions stored in function-pointer fields or passed as callbacks. *)
Inductive callback := Xserver_cleanup | Spawn_xserver | Handle_sigusr1.

(** [struct weston_process], as far as this file uses it. *)
Record weston_process := mk_process {
  pid : Z;
  cleanup : option callback
}.

(** [struct wet_xwayland]. *)
Record wet_xwayland := mk_wxw {
  compositor : ptr;
  api : ptr;
  xwayland : ptr;
  sigusr1_source : ptr;
  client : ptr;
  wm_fd : Z;
  process : weston_process
}.

(** What [zalloc] hands out: every field zero. *)
Definition zeroed : wet_xwayland :=
  mk_wxw None None None None None 0 (mk_process 0 None).

Definition set_compositor (v : ptr) (x : wet_xwayland) :=
  mk_wxw v (api x) (xwayland x) (sigusr1_source x) (client x) (wm_fd x)
         (process x).
Definition set_api (v : ptr) (x : wet_xwayland) :=
  mk_wxw (compositor x) v (xwayland x) (sigusr1_source x) (client x) (wm_fd x)
         (process x).
Definition set_xwayland (v : ptr) (x : wet_xwayland) :=
  mk_wxw (compositor x) (api x) v (sigusr1_source x) (client x) (wm_fd x)
         (process x).
Definition set_sigusr1_source (v : ptr) (x : wet_xwayland) :=
  mk_wxw (compositor x) (api x) (xwayland x) v (client x) (wm_fd x)
         (process x).
Definition set_client (v : ptr) (x : wet_xwayland) :=
  mk_wxw (compositor x) (api x) (xwayland x) (sigusr1_source x) v (wm_fd x)
         (process x).
Definition set_wm_fd (v : Z) (x : wet_xwayland) :=
  mk_wxw (compositor x) (api x) (xwayland x) (sigusr1_source x) (client x) v
         (process x).
Definition set_process_pid (v : Z) (x : wet_xwayland) :=
  mk_wxw (compositor x) (api x) (xwayland x) (sigusr1_source x) (client x)
         (wm_fd x) (mk_process v (cleanup (process x))).
Definition set_process_cleanup (v : option callback) (x : wet_xwayland) :=
  mk_wxw (compositor x) (api x) (xwayland x) (sigusr1_source x) (client x)
         (wm_fd x) (mk_process (pid (process x)) v).

(** ** External calls *)

(** The values of <signal.h> and <stdlib.h> on Linux. *)
Definition SIGUSR1 : Z := 10.
Definition EXIT_FAILURE : Z := 1.

(** One entry per call that leaves this file, with the arguments the code
    passes and the result it gets back. *)
Inductive event :=
| Socketpair (r : option (Z * Z))
| Fork (r : Z)
| Close (fd : Z)
| Dup (fd r : Z)
| Setenv (name value : string)
| SignalIgnore (signo : Z)
| Execv (path : string) (argv : list string)
| Exit_ (status : Z)
| Abort
| Log (msg : string)
| LogContinue (msg : string)
| ClientCreate (comp : ptr) (fd : Z) (r : ptr)
| WatchProcess (p : Z)
| XserverLoaded (xw : ptr) (c : ptr) (wm : Z)
| XserverExited (xw : ptr) (status : Z)
| AddSignal (signo : Z) (cb : callback) (r : nat)
| SourceRemove (src : ptr)
| LoadXwayland (comp : ptr) (r : Z)
| GetApi (comp : ptr) (r : ptr)
| ApiGet (comp : ptr) (r : ptr)
| Zalloc (r : ptr)
| Listen (xw : ptr) (user_data : ptr) (cb : callback) (r : Z).

(** What the process holds besides the [wet_xwayland] struct. *)
Record world := mk_world {
  open_fds : gset Z;      (* descriptors open in this process *)
  armed : list nat;       (* signal sources registered with the event loop,
                             oldest first *)
  next_handle : nat;      (* the next object the libraries hand out *)
  watched : list Z;       (* pids given to weston_watch_process *)
  live : gset nat;        (* heap blocks allocated and not freed *)
  trace : list event      (* the calls made so far, oldest first *)
}.

Definition emit (e : event) (w : world) : world :=
  mk_world (open_fds w) (armed w) (next_handle w) (watched w) (live w)
           (trace w ++ [e]).
Definition with_fds (f : gset Z) (w : world) : world :=
  mk_world f (armed w) (next_handle w) (watched w) (live w) (trace w).
Definition with_armed (a : list nat) (w : world) : world :=
  mk_world (open_fds w) a (next_handle w) (watched w) (live w) (trace w).
Definition with_next (n : nat) (w : world) : world :=
  mk_world (open_fds w) (armed w) n (watched w) (live w) (trace w).
Definition with_watched (l : list Z) (w : world) : world :=
  mk_world (open_fds w) (armed w) (next_handle w) l (live w) (trace w).
Definition with_live (l : gset nat) (w : world) : world :=
  mk_world (open_fds w) (armed w) (next_handle w) (watched w) l (trace w).

Definition empty_world : world := mk_world ∅ [] 1 [] ∅ [].

(** The state monad the C statements run in. *)
Definition M (A : Type) : Type := world -> A * world.

#[global] Instance M_ret : MRet M := fun A a w => (a, w).
#[global] Instance M_bind : MBind M :=
  fun A B f m w => let '(a, w') := m w in f a w'.

Definition call (e : event) : M unit := fun w => (tt, emit e w).

(** [socketpair(AF_UNIX, SOCK_STREAM | SOCK_CLOEXEC, 0, sv)]: on success
    both descriptors are open in the caller. *)
Definition socketpair (r : option (Z * Z)) : M (option (Z * Z)) :=
  fun w =>
    let w := emit (Socketpair r) w in
    match r with
    | Some (a, b) => (r, with_fds (open_fds w ∪ {[a]} ∪ {[b]}) w)
    | None => (r, w)
    end.

Definition fork (r : Z) : M Z := fun w => (r, emit (Fork r) w).

Definition close (fd : Z) : M unit :=
  fun w => let w := emit (Close fd) w in
           (tt, with_fds (open_fds w ∖ {[fd]}) w).

(** [dup(fd)]: a negative result is the failure. *)
Definition dup (fd r : Z) : M Z :=
  fun w => let w := emit (Dup fd r) w in
           (r, if r <? 0 then w else with_fds (open_fds w ∪ {[r]}) w).

Definition setenv (name value : string) : M unit := call (Setenv name value).
Definition signal_ignore (signo : Z) : M unit := call (SignalIgnore signo).
Definition weston_log (msg : string) : M unit := call (Log msg).
Definition weston_log_continue (msg : string) : M unit :=
  call (LogContinue msg).

Definition wl_client_create (comp : ptr) (fd : Z) (r : ptr) : M ptr :=
  fun w => (r, emit (ClientCreate comp fd r) w).

Definition weston_watch_process (p : Z) : M unit :=
  fun w => let w := emit (WatchProcess p) w in
           (tt, with_watched (watched w ++ [p]) w).

Definition xserver_loaded (xw c : ptr) (wm : Z) : M unit :=
  call (XserverLoaded xw c wm).
Definition xserver_exited (xw : ptr) (status : Z) : M unit :=
  call (XserverExited xw status).

(** [wl_event_loop_add_signal]: the event loop creates a new source and
    keeps it armed until it is removed. *)
Definition wl_event_loop_add_signal (signo : Z) (cb : callback) : M ptr :=
  fun w =>
    let s := next_handle w in
    let w := emit (AddSignal signo cb s) w in
    (Some s, with_next (S s) (with_armed (armed w ++ [s]) w)).

(** [wl_event_source_remove]: the source leaves the event loop.  Removing a
    source that is no longer there is undefined in C; here it changes
    nothing. *)
Definition wl_event_source_remove (src : ptr) : M unit :=
  fun w =>
    let w := emit (SourceRemove src) w in
    match src with
    | Some s => (tt, with_armed (filter (fun x => x ≠ s) (armed w)) w)
    | None => (tt, w)
    end.

Definition weston_compositor_load_xwayland (comp : ptr) (r : Z) : M Z :=
  fun w => (r, emit (LoadXwayland comp r) w).
Definition weston_xwayland_get_api (comp : ptr) (r : ptr) : M ptr :=
  fun w => (r, emit (GetApi comp r) w).
Definition api_get (comp : ptr) (r : ptr) : M ptr :=
  fun w => (r, emit (ApiGet comp r) w).
Definition api_listen (xw user_data : ptr) (cb : callback) (r : Z) : M Z :=
  fun w => (r, emit (Listen xw user_data cb r) w).

(** [zalloc]: a new zeroed block, or [NULL]. *)
Definition zalloc (ok : bool) : M ptr :=
  fun w =>
    if ok then
      let b := next_handle w in
      let w := emit (Zalloc (Some b)) w in
      (Some b, with_next (S b) (with_live (live w ∪ {[b]}) w))
    else (None, emit (Zalloc None) w).

(** ** [spawn_xserver] *)

(** Everything [spawn_xserver] gets from outside: the results of its system
    calls, the two settings of the [xwayland] section of the configuration,
    and the compiled-in default path. *)
Record spawn_env := mk_spawn_env {
  sv_pair : option (Z * Z);       (* first socketpair; None: it failed *)
  wm_pair : option (Z * Z);       (* second socketpair *)
  fork_ret : Z;                   (* 0 in the child, -1 on failure *)
  dup_sv : Z;                     (* dup(sv[1]) *)
  dup_abstract : Z;               (* dup(abstract_fd) *)
  dup_unix : Z;                   (* dup(unix_fd) *)
  dup_wm : Z;                     (* dup(wm[1]) *)
  XSERVER_PATH : string;          (* from the build configuration *)
  config_path : option string;    (* [xwayland] path *)
  config_disable_ac : option bool;(* [xwayland] disable_access_control *)
  stack_garbage : string;         (* abstract_fd_str before it is written *)
  execv_error : option string;    (* strerror(errno) when execv returns *)
  created_client : ptr            (* wl_client_create *)
}.

(** How a call of [spawn_xserver] ends in the process that runs it. *)
Inductive outcome :=
| Return (r : Z)                              (* back in the caller *)
| Exec (path : string) (argv : list string)   (* the image is replaced *)
| Exited (status : Z)                         (* _exit *)
| Aborted.                                    (* failed assert *)

Definition _exit (status : Z) : M outcome :=
  call (Exit_ status);; mret (Exited status).

(** [%s] of an array slot. *)
Definition show_arg (argv : list cstr) (i : nat) : string :=
  default "(null)" (mjoin (argv !! i)).

Fixpoint log_args (argv : list cstr) (idx : list nat) : M unit :=
  match idx with
  | [] => mret tt
  | i :: rest =>
      weston_log_continue (show_arg argv i +:+ " ");; log_args argv rest
  end.

(** [case 0:] of the switch, lines 88-168. *)
Definition xserver_child (e : spawn_env) (display : string)
    (abstract_fd unix_fd : Z) (sv1 wm1 : Z) : M outcome :=
  fd ← dup sv1 (dup_sv e);
  if fd <? 0 then _exit EXIT_FAILURE else
  setenv "WAYLAND_SOCKET" (snprintf_d 12 fd);;
  a ← (if abstract_fd =? 0 then mret (Some (stack_garbage e))
       else fd ← dup abstract_fd (dup_abstract e);
            mret (if fd <? 0 then None else Some (snprintf_d 12 fd)));
  match a with
  | None => _exit EXIT_FAILURE
  | Some abstract_fd_str =>
    fd ← dup unix_fd (dup_unix e);
    if fd <? 0 then _exit EXIT_FAILURE else
    let unix_fd_str := snprintf_d 12 fd in
    fd ← dup wm1 (dup_wm e);
    if fd <? 0 then _exit EXIT_FAILURE else
    let wm_fd_str := snprintf_d 12 fd in
    let xserver := default (XSERVER_PATH e) (config_path e) in
    let disable_ac := default false (config_disable_ac e) in
    signal_ignore SIGUSR1;;
    match build_argv xserver display unix_fd_str wm_fd_str
                     abstract_fd abstract_fd_str disable_ac with
    | None => call Abort;; mret Aborted
    | Some (argv, argc) =>
      call (Execv xserver (c_vector argv));;
      match execv_error e with
      | None => mret (Exec xserver (c_vector argv))
      | Some err =>
        weston_log (show_arg argv 0 +:+ " ");;
        log_args argv (seq 0 argc);;
        weston_log (nl +:+ "Failed to launch Xwayland: " +:+ err +:+ nl);;
        _exit EXIT_FAILURE
      end
    end
  end.

(** [spawn_xserver(user_data, display, abstract_fd, unix_fd)].  The struct
    behind [user_data] is passed in and handed back. *)
Definition spawn_xserver (e : spawn_env) (wxw : wet_xwayland)
    (display : string) (abstract_fd unix_fd : Z)
  : M (outcome * wet_xwayland) :=
  sv ← socketpair (sv_pair e);
  match sv with
  | None =>
    weston_log ("wl connection socketpair failed" +:+ nl);;
    mret (Return 1, wxw)
  | Some (sv0, sv1) =>
    wm ← socketpair (wm_pair e);
    match wm with
    | None =>
      weston_log ("X wm connection socketpair failed" +:+ nl);;
      mret (Return 1, wxw)
    | Some (wm0, wm1) =>
      pid ← fork (fork_ret e);
      if pid =? 0 then
        r ← xserver_child e display abstract_fd unix_fd sv1 wm1;
        mret (r, wxw)
      else if pid =? -1 then
        weston_log ("Failed to fork to spawn xserver process" +:+ nl);;
        mret (Return pid, wxw)
      else
        close sv1;;
        c ← wl_client_create (compositor wxw) sv0 (created_client e);
        let wxw := set_client c wxw in
        close wm1;;
        let wxw := set_wm_fd wm0 wxw in
        let wxw := set_process_pid pid wxw in
        weston_watch_process (pid);;
        mret (Return pid, wxw)
    end
  end.

(** ** The two callbacks *)

(** [handle_sigusr1(signal_number, data)]. *)
Definition handle_sigusr1 (signal_number : Z) (wxw : wet_xwayland)
  : M (Z * wet_xwayland) :=
  xserver_loaded (xwayland wxw) (client wxw) (wm_fd wxw);;
  wl_event_source_remove (sigusr1_source wxw);;
  mret (1, wxw).

(** [xserver_cleanup(process, status)], on the struct that contains
    [process]. *)
Definition xserver_cleanup (wxw : wet_xwayland) (status : Z)
  : M wet_xwayland :=
  xserver_exited (xwayland wxw) status;;
  src ← wl_event_loop_add_signal SIGUSR1 Handle_sigusr1;
  let wxw := set_sigusr1_source src wxw in
  let wxw := set_client None wxw in
  mret wxw.

(** ** [wet_load_xwayland] *)

Record load_env := mk_load_env {
  load_xwayland_ret : Z;   (* weston_compositor_load_xwayland *)
  get_api_ret : ptr;       (* weston_xwayland_get_api *)
  api_get_ret : ptr;       (* api->get *)
  zalloc_ok : bool;        (* zalloc returned a block *)
  listen_ret : Z           (* api->listen *)
}.

(** [wet_load_xwayland(comp)]: the return value, and the struct now
    registered with the xwayland module when the load succeeded. *)
Definition wet_load_xwayland (e : load_env) (comp : ptr)
  : M (Z * option wet_xwayland) :=
  r ← weston_compositor_load_xwayland comp (load_xwayland_ret e);
  if r <? 0 then mret (-1, None) else
  api ← weston_xwayland_get_api comp (get_api_ret e);
  match api with
  | None =>
    weston_log ("Failed to get the xwayland module API." +:+ nl);;
    mret (-1, None)
  | Some _ =>
    xwayland ← api_get comp (api_get_ret e);
    match xwayland with
    | None =>
      weston_log ("Failed to get the xwayland object." +:+ nl);;
      mret (-1, None)
    | Some _ =>
      blk ← zalloc (zalloc_ok e);
      match blk with
      | None => mret (-1, None)
      | Some _ =>
        let wxw := zeroed in
        let wxw := set_compositor comp wxw in
        let wxw := set_api api wxw in
        let wxw := set_xwayland xwayland wxw in
        let wxw := set_process_cleanup (Some Xserver_cleanup) wxw in
        r ← api_listen xwayland blk Spawn_xserver (listen_ret e);
        if r <? 0 then mret (-1, None) else
        src ← wl_event_loop_add_signal SIGUSR1 Handle_sigusr1;
        let wxw := set_sigusr1_source src wxw in
        mret (0, Some wxw)
      end
    end
  end.

(** ** The supervisor on the event loop *)

(** The compositor process after a successful load: the registered struct
    and the resources of the process. *)
Record host := mk_host {
  sup : wet_xwayland;
  os : world
}.

(** What can happen to a loaded supervisor. *)
Inductive input :=
| Spawn (e : spawn_env) (display : string) (abstract_fd unix_fd : Z)
    (* the xwayland module calls the spawn callback *)
| Sigusr1
    (* SIGUSR1 reaches the compositor *)
| ChildExit (status : Z).
    (* the spawned process has terminated *)

(** libwayland's event loop runs the callback of a signal source when the
    signal arrives, if a source is armed. *)
Definition deliver_sigusr1 (h : host) : host :=
  match armed (os h) with
  | [] => h
  | _ :: _ =>
    let r := handle_sigusr1 SIGUSR1 (sup h) (os h) in
    mk_host r.1.2 r.2
  end.

(** Modelled from the spec: the host's process-watch facility
    (weston_watch_process and the SIGCHLD handler are in compositor/main.c,
    which is not among the sources).  It calls the termination callback of
    a watched process once, with the exit status, and stops watching it. *)
Definition reap (status : Z) (h : host) : host :=
  let p := pid (process (sup h)) in
  if bool_decide (p ∈ watched (os h)) then
    match cleanup (process (sup h)) with
    | Some Xserver_cleanup =>
      let w := with_watched (filter (fun x => x ≠ p) (watched (os h))) (os h) in
      let r := xserver_cleanup (sup h) status w in
      mk_host r.1 r.2
    | _ => h
    end
  else h.

(** One input.  [None]: the call of [spawn_xserver] did not return, the
    process that ran it is the forked child. *)
Definition step (i : input) (h : host) : option host :=
  match i with
  | Spawn e display abstract_fd unix_fd =>
    let r := spawn_xserver e (sup h) display abstract_fd unix_fd (os h) in
    match r.1.1 with
    | Return _ => Some (mk_host r.1.2 r.2)
    | _ => None
    end
  | Sigusr1 => Some (deliver_sigusr1 h)
  | ChildExit status => Some (reap status h)
  end.

Fixpoint run (inputs : list input) (h : host) : option host :=
  match inputs with
  | [] => Some h
  | i :: rest =>
    match step i h with
    | Some h' => run rest h'
    | None => None
    end
  end.

(** The compositor right after [wet_load_xwayland], when it succeeded. *)
Definition load (e : load_env) (comp : ptr) : option host :=
  let r := wet_load_xwayland e comp empty_world in
  match r.1.2 with
  | Some wxw => Some (mk_host wxw r.2)
  | None => None
  end.

(** The readiness subscriptions armed at one moment. *)
Definition armed_subscriptions (h : host) : nat := length (armed (os h)).

(** Handles come from a counter: every armed source is below it. *)
Definition world_ok (w : world) : Prop :=
  forall s, s ∈ armed w -> (s < next_handle w)%nat.

(** ** Concrete environments used in the examples *)

Definition env_ok : spawn_env :=
  mk_spawn_env (Some (3, 4)) (Some (5, 6)) 100 7 8 9 10
               "/usr/bin/Xwayland" None None "" None (Some 2%nat).

Definition env_child (ac : option bool) : spawn_env :=
  mk_spawn_env (Some (3, 4)) (Some (5, 6)) 0 7 8 9 10
               "/usr/bin/Xwayland" None ac "" None None.

Definition env_fork_fails : spawn_env :=
  mk_spawn_env (Some (3, 4)) (Some (5, 6)) (-1) 7 8 9 10
               "/usr/bin/Xwayland" None None "" None None.

Definition env_no_channel : spawn_env :=
  mk_spawn_env (Some (3, 4)) None 100 7 8 9 10
               "/usr/bin/Xwayland" None None "" None None.

Definition load_ok : load_env :=
  mk_load_env 0 (Some 1%nat) (Some 2%nat) true 0.

Definition load_listen_fails : load_env :=
  mk_load_env 0 (Some 1%nat) (Some 2%nat) true (-1).

(** A supervisor whose helper is running. *)
Definition wxw_running : wet_xwayland :=
  mk_wxw (Some 1%nat) (Some 2%nat) (Some 3%nat) (Some 4%nat) (Some 5%nat) 7
         (mk_process 42 (Some Xserver_cleanup)).

(** The descriptors a run of events duplicated, in order. *)
Definition dup_fds (evs : list event) : list Z :=
  omap (fun ev => match ev with Dup fd _ => Some fd | _ => None end) evs.

(** The per-spawn fields are back to what [zalloc] gave them. *)
Definition per_spawn_cleared (x : wet_xwayland) : Prop :=
  pid (process x) = 0 /\ wm_fd x = 0 /\ client x = None.

(** The module, its API and its handle are there. *)
Definition prerequisites_met (e : load_env) : Prop :=
  0 <= load_xwayland_ret e
  /\ is_Some (get_api_ret e)
  /\ is_Some (api_get_ret e).

(** Between two helpers: one subscription is armed, it is the one the
    struct records, the exit callback is in place and no process is
    watched. *)
Definition idle (h : host) : Prop :=
  exists s : nat,
    armed (os h) = [s]
    /\ sigusr1_source (sup h) = Some s
    /\ cleanup (process (sup h)) = Some Xserver_cleanup
    /\ watched (os h) = [].

(** The range of a C [int] on the platforms weston runs on. *)
Definition INT_MIN : Z := - 2 ^ 31.
Definition INT_MAX : Z := 2 ^ 31 - 1.

(** Every [dup] the child makes for this [abstract_fd] succeeds. *)
Definition child_dups_ok (e : spawn_env) (abstract_fd : Z) : bool :=
  (0 <=? dup_sv e)
  && ((abstract_fd =? 0) || (0 <=? dup_abstract e))
  && (0 <=? dup_unix e)
  && (0 <=? dup_wm e).

(** The server binary the child executes. *)
Definition child_xserver (e : spawn_env) : string :=
  default (XSERVER_PATH e) (config_path e).

(** The calls of the child before [execv], when no [dup] fails. *)
Definition child_setup (e : spawn_env) (abstract_fd unix_fd sv1 wm1 : Z)
  : list event :=
  [Dup sv1 (dup_sv e); Setenv "WAYLAND_SOCKET" (snprintf_d 12 (dup_sv e))]
  ++ (if abstract_fd =? 0 then [] else [Dup abstract_fd (dup_abstract e)])
  ++ [Dup unix_fd (dup_unix e); Dup wm1 (dup_wm e); SignalIgnore SIGUSR1].

(** The command line the child hands to [execv]. *)
Definition child_argv (e : spawn_env) (display : string) (abstract_fd : Z)
  : list string :=
  fixed_args (child_xserver e) display
             (snprintf_d 12 (dup_unix e)) (snprintf_d 12 (dup_wm e))
  ++ listen_args abstract_fd (snprintf_d 12 (dup_abstract e))
  ++ ac_args (default false (config_disable_ac e)).

(** Every step of [wet_load_xwayland] succeeds. *)
Definition load_steps_ok (e : load_env) : bool :=
  (0 <=? load_xwayland_ret e)
  && bool_decide (is_Some (get_api_ret e))
  && bool_decide (is_Some (api_get_ret e))
  && zalloc_ok e
  && (0 <=? listen_ret e).

(** The two notifications the xwayland module gets from this file. *)
Inductive notification := Loaded | Gone.

Definition notifications (evs : list event) : list notification :=
  omap (fun ev => match ev with
                  | XserverLoaded _ _ _ => Some Loaded
                  | XserverExited _ _ => Some Gone
                  | _ => None
                  end) evs.

(** One life of a helper: the arguments of the spawn and the exit status. *)
Record helper_life := mk_life {
  life_env : spawn_env;
  life_display : string;
  life_abstract_fd : Z;
  life_unix_fd : Z;
  life_status : Z
}.

(** The spawn of this life reaches the parent's branch. *)
Definition spawns (c : helper_life) : Prop :=
  is_Some (sv_pair (life_env c)) /\ is_Some (wm_pair (life_env c))
  /\ fork_ret (life_env c) ≠ 0 /\ fork_ret (life_env c) ≠ -1.

(** The helper is spawned, signals readiness, and exits. *)
Definition ready_then_exit (c : helper_life) : list input :=
  [Spawn (life_env c) (life_display c) (life_abstract_fd c) (life_unix_fd c);
   Sigusr1; ChildExit (life_status c)].



(** Reads a decimal string as a number, as the server does with the
    descriptors on its command line. *)
Definition parse_d (s : string) : option Z :=
  Z.of_int <$> NilZero.int_of_string s.

(** The supervisor is between helpers in the sense of the process watch:
    the exit callback is in place and nothing is watched. *)
Definition settled (h : host) : Prop :=
  cleanup (process (sup h)) = Some Xserver_cleanup /\ watched (os h) = [].

(** The helper is spawned and exits without signalling readiness. *)
Definition silent_exit (c : helper_life) : list input :=
  [Spawn (life_env c) (life_display c) (life_abstract_fd c) (life_unix_fd c);
   ChildExit (life_status c)].



(** What every [setenv] and [execv] of the child must satisfy for the
    server to read back the descriptors [dup] returned. *)
Definition reads_back (e : spawn_env) (abstract_fd : Z) (ev : event) : Prop :=
  match ev with
  | Setenv name value =>
      name = "WAYLAND_SOCKET" /\ parse_d value = Some (dup_sv e)
  | Execv _ argv =>
      (argv !! 5%nat) ≫= parse_d = Some (dup_unix e)
      /\ (argv !! 7%nat) ≫= parse_d = Some (dup_wm e)
      /\ if abstract_fd =? 0
         then argv !! 9%nat = Some "-nolisten"
         else argv !! 9%nat = Some "-listen"
              /\ (argv !! 10%nat) ≫= parse_d = Some (dup_abstract e)
  | _ => True
  end.

(** * Properties *)

(** Unfolds the monad and the external calls of a goal. *)
Ltac unfold_calls :=
  unfold _exit, socketpair, fork, close, dup, setenv, signal_ignore,
    weston_log, weston_log_continue, wl_client_create, weston_watch_process,
    xserver_loaded, xserver_exited, wl_event_loop_add_signal,
    wl_event_source_remove, weston_compositor_load_xwayland,
    weston_xwayland_get_api, api_get, api_listen, zalloc, call,
    mbind, mret, M_bind, M_ret in *;
  cbn [fst snd emit with_fds with_armed with_next with_watched with_live
       open_fds armed next_handle watched live trace] in *.

(** Brings a trace built by successive calls to the form [old ++ news]. *)
Ltac flat_trace := rewrite <- ?app_assoc; cbn [app].

(** Two worlds with the same fields are the same world. *)
Lemma world_eq (w1 w2 : world) :
  open_fds w1 = open_fds w2 ->
  armed w1 = armed w2 ->
  next_handle w1 = next_handle w2 ->
  watched w1 = watched w2 ->
  live w1 = live w2 ->
  trace w1 = trace w2 ->
  w1 = w2.
Proof.
  destruct w1, w2. cbn. intros. congruence.
Qed.

(** Compares two worlds field by field. *)
Ltac same_world :=
  apply world_eq;
  cbn [emit with_fds with_armed with_next with_watched with_live
       open_fds armed next_handle watched live trace];
  try (flat_trace; reflexivity).

(** C1: whatever the inputs, the assertion holds and the vector handed to
    [execv] is the nine fixed entries, then exactly one of
    ["-listen" abstract_fd_str] (an abstract descriptor was given, the code's
    test [abstract_fd != 0]) and ["-nolisten" "local"], then ["-ac"] exactly
    when access control is disabled; the array has 13 slots, and the entries
    together with the terminating NULL fit in them. *)
Theorem build_argv_shape :
  forall xserver display unix_fd_str wm_fd_str abstract_fd abstract_fd_str
         disable_ac,
  exists argv argc,
    build_argv xserver display unix_fd_str wm_fd_str
               abstract_fd abstract_fd_str disable_ac = Some (argv, argc)
    /\ c_vector argv =
         fixed_args xserver display unix_fd_str wm_fd_str
         ++ listen_args abstract_fd abstract_fd_str
         ++ ac_args disable_ac
    /\ (drop 11 (c_vector argv) = ["-ac"] <-> disable_ac = true)
    /\ length (c_vector argv) = argc
    /\ length argv = ARGS_COUNT
    /\ argv !! argc = Some None
    /\ (argc + 1 <= ARGS_COUNT)%nat.
Proof.
  intros xs d u wmf afd afs ac.
  unfold build_argv, listen_args, ac_args.
  destruct (afd =? 0), ac; cbn;
    (eexists; eexists; repeat split; try reflexivity;
     try (unfold push_arg, ARGS_COUNT; simpl; lia); try discriminate).
Qed.

(** An abstract socket duplicated as descriptor 8, access control on: the
    array ends with two NULLs. *)
Example build_argv_abstract :
  build_argv "/usr/bin/Xwayland" ":1" "9" "10" 5 "8" false =
    Some ([Some "/usr/bin/Xwayland"; Some ":1"; Some "-rootless";
           Some "-core"; Some "-listen"; Some "9"; Some "-wm"; Some "10";
           Some "-terminate"; Some "-listen"; Some "8"; None; None],
          11%nat).
Proof. reflexivity. Qed.

(** No abstract socket, access control off: twelve entries and the
    terminator fill the array. *)
Example build_argv_nolisten_ac :
  build_argv "/usr/bin/Xwayland" ":0" "9" "10" 0 "" true =
    Some ([Some "/usr/bin/Xwayland"; Some ":0"; Some "-rootless";
           Some "-core"; Some "-listen"; Some "9"; Some "-wm"; Some "10";
           Some "-terminate"; Some "-nolisten"; Some "local"; Some "-ac";
           None],
          12%nat).
Proof. reflexivity. Qed.

(** ** The readiness watcher *)


(** ** The exit handler *)

(** What [xserver_cleanup] does, on any struct and in any world. *)
Lemma xserver_cleanup_eq (wxw : wet_xwayland) (status : Z) (w : world) :
  xserver_cleanup wxw status w =
    (set_client None (set_sigusr1_source (Some (next_handle w)) wxw),
     mk_world (open_fds w) (armed w ++ [next_handle w]) (S (next_handle w))
              (watched w) (live w)
              (trace w ++ [XserverExited (xwayland wxw) status;
                           AddSignal SIGUSR1 Handle_sigusr1 (next_handle w)])).
Proof.
  unfold xserver_cleanup. unfold_calls. f_equal. same_world.
Qed.

(** C7: on an exit notification, in a world whose handles come from the
    counter, the handler makes exactly two calls, in this order: it tells
    the xwayland module that the server exited, with the status, and it arms
    a readiness subscription that was not armed before, which it records in
    the struct; then it sets the client to NULL.  Nothing else changes. *)
Theorem xserver_cleanup_effects :
  forall (wxw : wet_xwayland) (status : Z) (w : world),
    world_ok w ->
    let r := xserver_cleanup wxw status w in
    exists s : nat,
      trace r.2 = trace w ++ [XserverExited (xwayland wxw) status;
                              AddSignal SIGUSR1 Handle_sigusr1 s]
      /\ (s ∉ armed w)
      /\ armed r.2 = armed w ++ [s]
      /\ r.1 = set_client None (set_sigusr1_source (Some s) wxw)
      /\ client r.1 = None
      /\ open_fds r.2 = open_fds w
      /\ watched r.2 = watched w
      /\ live r.2 = live w
      /\ world_ok r.2.
Proof.
  intros wxw status w Hok r. subst r. rewrite xserver_cleanup_eq. cbn.
  exists (next_handle w). repeat split; try reflexivity.
  - intros Hin. apply Hok in Hin. lia.
  - intros s Hin. cbn in *. apply elem_of_app in Hin as [Hin | Hin].
    + apply Hok in Hin. lia.
    + apply list_elem_of_singleton in Hin. lia.
Qed.

Lemma xserver_cleanup_effects_witness :
  world_ok empty_world /\
  exists s : nat,
    trace (xserver_cleanup wxw_running 0 empty_world).2 =
      trace empty_world ++ [XserverExited (xwayland wxw_running) 0;
                            AddSignal SIGUSR1 Handle_sigusr1 s]
    /\ (s ∉ armed empty_world).
Proof.
  assert (Hok : world_ok empty_world).
  { intros s Hin. cbn in Hin. apply elem_of_nil in Hin. destruct Hin. }
  split; [exact Hok |].
  destruct (xserver_cleanup_effects wxw_running 0 empty_world Hok)
    as (s & Ht & Hs & _).
  exists s. split; assumption.
Defined.

(** C5, as the code has it: the exit handler sets the client to NULL and
    leaves the process id, the exit callback and the window-manager
    descriptor of the terminated helper where they are. *)
Theorem xserver_cleanup_clears_client_only :
  forall (wxw : wet_xwayland) (status : Z) (w : world),
    let wxw' := (xserver_cleanup wxw status w).1 in
    client wxw' = None
    /\ wm_fd wxw' = wm_fd wxw
    /\ process wxw' = process wxw.
Proof.
  intros wxw status w. rewrite xserver_cleanup_eq. cbn. auto.
Qed.

(** C5, as stated, fails: after the exit of helper 42, whose
    window-manager descriptor was 7, both values are still in the struct. *)
Lemma xserver_cleanup_keeps_pid_and_wm_fd :
  let wxw' := (xserver_cleanup wxw_running 0 empty_world).1 in
  pid (process wxw') = 42 /\ wm_fd wxw' = 7 /\ ~ per_spawn_cleared wxw'.
Proof.
  cbn. repeat split. intros (H & _). discriminate H.
Qed.

(** ** The launcher *)

(** The first socket pair cannot be created. *)
Lemma spawn_no_display_channel e wxw display abstract_fd unix_fd w :
  sv_pair e = None ->
  spawn_xserver e wxw display abstract_fd unix_fd w =
    (Return 1, wxw,
     emit (Log ("wl connection socketpair failed" +:+ nl))
          (emit (Socketpair None) w)).
Proof.
  intros Hsv. unfold spawn_xserver. unfold_calls. rewrite Hsv. reflexivity.
Qed.

(** The second socket pair cannot be created. *)
Lemma spawn_no_wm_channel e wxw display abstract_fd unix_fd w sv0 sv1 :
  sv_pair e = Some (sv0, sv1) ->
  wm_pair e = None ->
  spawn_xserver e wxw display abstract_fd unix_fd w =
    (Return 1, wxw,
     emit (Log ("X wm connection socketpair failed" +:+ nl))
          (emit (Socketpair None)
                (with_fds (open_fds w ∪ {[sv0]} ∪ {[sv1]})
                          (emit (Socketpair (Some (sv0, sv1))) w)))).
Proof.
  intros Hsv Hwm. unfold spawn_xserver. unfold_calls.
  rewrite Hsv. cbn. rewrite Hwm. reflexivity.
Qed.

(** The parent's side of a fork that worked. *)
Lemma spawn_parent_eq e wxw display abstract_fd unix_fd w sv0 sv1 wm0 wm1 :
  sv_pair e = Some (sv0, sv1) ->
  wm_pair e = Some (wm0, wm1) ->
  fork_ret e ≠ 0 ->
  fork_ret e ≠ -1 ->
  spawn_xserver e wxw display abstract_fd unix_fd w =
    (Return (fork_ret e),
     set_process_pid (fork_ret e)
       (set_wm_fd wm0 (set_client (created_client e) wxw)),
     mk_world
       ((open_fds w ∪ {[sv0]} ∪ {[sv1]} ∪ {[wm0]} ∪ {[wm1]}) ∖ {[sv1]}
          ∖ {[wm1]})
       (armed w) (next_handle w) (watched w ++ [fork_ret e]) (live w)
       (trace w ++
          [Socketpair (Some (sv0, sv1)); Socketpair (Some (wm0, wm1));
           Fork (fork_ret e); Close sv1;
           ClientCreate (compositor wxw) sv0 (created_client e);
           Close wm1; WatchProcess (fork_ret e)])).
Proof.
  intros Hsv Hwm H0 H1. unfold spawn_xserver. unfold_calls.
  rewrite Hsv. cbn. rewrite Hwm. cbn.
  destruct (Z.eqb_spec (fork_ret e) 0) as [|_]; [contradiction |].
  destruct (Z.eqb_spec (fork_ret e) (-1)) as [|_]; [contradiction |].
  cbn. f_equal. same_world.
Qed.

(** C9: when both socket pairs are created and fork returns a child's
    process id, the calls [spawn_xserver] makes are exactly: two socketpair
    calls, one fork, the close of the child's end of the display pair, the
    creation of the client on the parent's end of that pair, the close of
    the child's end of the window-manager pair, and the registration of the
    process id with the process watch.  The client, the parent's end of the
    window-manager pair and the process id are stored in the struct, the
    two child ends are no longer open, and the process id is returned. *)
Theorem spawn_success_parent :
  forall e wxw display abstract_fd unix_fd w sv0 sv1 wm0 wm1,
    sv_pair e = Some (sv0, sv1) ->
    wm_pair e = Some (wm0, wm1) ->
    fork_ret e ≠ 0 ->
    fork_ret e ≠ -1 ->
    let r := spawn_xserver e wxw display abstract_fd unix_fd w in
    r.1.1 = Return (fork_ret e)
    /\ trace r.2 = trace w ++
         [Socketpair (Some (sv0, sv1)); Socketpair (Some (wm0, wm1));
          Fork (fork_ret e); Close sv1;
          ClientCreate (compositor wxw) sv0 (created_client e);
          Close wm1; WatchProcess (fork_ret e)]
    /\ client r.1.2 = created_client e
    /\ wm_fd r.1.2 = wm0
    /\ pid (process r.1.2) = fork_ret e
    /\ watched r.2 = watched w ++ [fork_ret e]
    /\ (sv1 ∉ open_fds r.2)
    /\ (wm1 ∉ open_fds r.2)
    /\ open_fds r.2 = (open_fds w ∪ {[sv0; wm0]}) ∖ {[sv1; wm1]}
    /\ armed r.2 = armed w
    /\ compositor r.1.2 = compositor wxw
    /\ api r.1.2 = api wxw
    /\ xwayland r.1.2 = xwayland wxw
    /\ sigusr1_source r.1.2 = sigusr1_source wxw
    /\ cleanup (process r.1.2) = cleanup (process wxw).
Proof.
  intros e wxw display abstract_fd unix_fd w sv0 sv1 wm0 wm1 Hsv Hwm H0 H1 r.
  subst r. rewrite (spawn_parent_eq _ _ _ _ _ _ _ _ _ _ Hsv Hwm H0 H1). cbn.
  repeat split; try reflexivity; set_solver.
Qed.

Lemma spawn_success_parent_witness :
  sv_pair env_ok = Some (3, 4) /\ wm_pair env_ok = Some (5, 6)
  /\ fork_ret env_ok ≠ 0 /\ fork_ret env_ok ≠ -1
  /\ (spawn_xserver env_ok wxw_running ":0" 0 11 empty_world).1.1
     = Return 100
  /\ trace (spawn_xserver env_ok wxw_running ":0" 0 11 empty_world).2
     = [Socketpair (Some (3, 4)); Socketpair (Some (5, 6)); Fork 100;
        Close 4; ClientCreate (Some 1%nat) 3 (Some 2%nat); Close 6;
        WatchProcess 100].
Proof.
  assert (Hsv : sv_pair env_ok = Some (3, 4)) by reflexivity.
  assert (Hwm : wm_pair env_ok = Some (5, 6)) by reflexivity.
  assert (H0 : fork_ret env_ok ≠ 0) by (cbn; lia).
  assert (H1 : fork_ret env_ok ≠ -1) by (cbn; lia).
  repeat (split; [assumption |]).
  destruct (spawn_success_parent env_ok wxw_running ":0" 0 11 empty_world
                                 3 4 5 6 Hsv Hwm H0 H1)
    as (Hr & Ht & _).
  split; [exact Hr | exact Ht].
Defined.

(** Fork fails after both socket pairs were created. *)
Lemma spawn_fork_failure_eq e wxw display abstract_fd unix_fd w
      sv0 sv1 wm0 wm1 :
  sv_pair e = Some (sv0, sv1) ->
  wm_pair e = Some (wm0, wm1) ->
  fork_ret e = -1 ->
  spawn_xserver e wxw display abstract_fd unix_fd w =
    (Return (-1), wxw,
     mk_world (open_fds w ∪ {[sv0]} ∪ {[sv1]} ∪ {[wm0]} ∪ {[wm1]})
       (armed w) (next_handle w) (watched w) (live w)
       (trace w ++
          [Socketpair (Some (sv0, sv1)); Socketpair (Some (wm0, wm1));
           Fork (-1);
           Log ("Failed to fork to spawn xserver process" +:+ nl)])).
Proof.
  intros Hsv Hwm Hf. unfold spawn_xserver. unfold_calls.
  rewrite Hsv. cbn. rewrite Hwm. cbn. rewrite Hf. cbn.
  f_equal. same_world.
Qed.

(** C3, on the code: with socket pairs (3, 4) and (5, 6) and a failing
    fork, [spawn_xserver] returns -1, which differs from the 1 of a channel
    failure, but it closes nothing: its calls are the two socketpairs, the
    fork and the log message, and all four descriptors are still open in
    the compositor. *)
Theorem fork_failure_leaves_channels_open :
  let r := spawn_xserver env_fork_fails wxw_running ":0" 0 11 empty_world in
  r.1.1 = Return (-1)
  /\ Return (-1) <> Return 1
  /\ trace r.2 =
       [Socketpair (Some (3, 4)); Socketpair (Some (5, 6)); Fork (-1);
        Log ("Failed to fork to spawn xserver process" +:+ nl)]
  /\ open_fds r.2 = {[3; 4; 5; 6]}
  /\ r.1.2 = wxw_running.
Proof.
  cbn zeta.
  rewrite (spawn_fork_failure_eq env_fork_fails wxw_running ":0" 0 11
             empty_world 3 4 5 6 eq_refl eq_refl eq_refl).
  cbn. repeat split; try discriminate.
Qed.

(** C10: a call with [abstract_fd = 0] is treated as a call without an
    abstract socket.  In the child, whatever the system calls return, the
    descriptors duplicated are a prefix of the display pair's child end,
    [unix_fd] and the window-manager pair's child end, so no [dup] is made
    for the abstract descriptor; every [execv] the child attempts carries the
    nine fixed entries followed by ["-nolisten" "local"] (and ["-ac"] when
    configured), never ["-listen" "0"]; and the child either becomes that
    server or exits with the failure status.  When the three [dup] calls
    succeed the [execv] is attempted. *)
Theorem abstract_fd_zero_is_absent :
  forall e wxw display unix_fd w sv0 sv1 wm0 wm1,
    sv_pair e = Some (sv0, sv1) ->
    wm_pair e = Some (wm0, wm1) ->
    fork_ret e = 0 ->
    let r := spawn_xserver e wxw display 0 unix_fd w in
    let xserver := default (XSERVER_PATH e) (config_path e) in
    let argv :=
      fixed_args xserver display
                 (snprintf_d 12 (dup_unix e)) (snprintf_d 12 (dup_wm e))
      ++ ["-nolisten"; "local"]
      ++ ac_args (default false (config_disable_ac e)) in
    exists evs,
      trace r.2 = trace w ++
        [Socketpair (Some (sv0, sv1)); Socketpair (Some (wm0, wm1)); Fork 0]
        ++ evs
      /\ dup_fds evs `prefix_of` [sv1; unix_fd; wm1]
      /\ Forall (fun ev => match ev with
                           | Execv p a => p = xserver /\ a = argv
                           | _ => True
                           end) evs
      /\ match r.1.1 with
         | Exec p a => p = xserver /\ a = argv
         | Exited s => s = EXIT_FAILURE
         | _ => False
         end
      /\ if (0 <=? dup_sv e) && (0 <=? dup_unix e) && (0 <=? dup_wm e)
         then dup_fds evs = [sv1; unix_fd; wm1] /\ Execv xserver argv ∈ evs
         else r.1.1 = Exited EXIT_FAILURE.
Proof.
  intros e wxw display unix_fd w sv0 sv1 wm0 wm1 Hsv Hwm Hf r xserver argv.
  subst r xserver argv.
  unfold spawn_xserver, xserver_child. unfold_calls.
  rewrite Hsv. cbn -[snprintf_d nl]. rewrite Hwm. cbn -[snprintf_d nl].
  rewrite Hf. cbn -[snprintf_d nl].
  rewrite !(Z.leb_antisym _ 0).
  destruct (dup_sv e <? 0); cbn -[snprintf_d nl].
  { eexists. split; [flat_trace; reflexivity |].
    repeat split; [by eexists | repeat constructor]. }
  destruct (dup_unix e <? 0); cbn -[snprintf_d nl].
  { eexists. split; [flat_trace; reflexivity |].
    repeat split; [by eexists | repeat constructor]. }
  destruct (dup_wm e <? 0); cbn -[snprintf_d nl].
  { eexists. split; [flat_trace; reflexivity |].
    repeat split; [by eexists | repeat constructor]. }
  destruct (config_disable_ac e) as [[|]|], (execv_error e) as [err|];
    cbn -[snprintf_d nl]; unfold_calls; cbn -[snprintf_d nl];
    (eexists; split; [flat_trace; reflexivity |];
     repeat split;
     [ by exists [] | repeat constructor; reflexivity | set_solver ]).
Qed.

Lemma abstract_fd_zero_is_absent_witness :
  sv_pair (env_child (Some true)) = Some (3, 4)
  /\ wm_pair (env_child (Some true)) = Some (5, 6)
  /\ fork_ret (env_child (Some true)) = 0
  /\ exists evs,
       trace (spawn_xserver (env_child (Some true)) wxw_running ":0" 0 11
                            empty_world).2
       = trace empty_world ++
           [Socketpair (Some (3, 4)); Socketpair (Some (5, 6)); Fork 0]
           ++ evs
       /\ dup_fds evs `prefix_of` [4; 11; 6].
Proof.
  repeat (split; [reflexivity |]).
  destruct (abstract_fd_zero_is_absent (env_child (Some true)) wxw_running
              ":0" 11 empty_world 3 4 5 6 eq_refl eq_refl eq_refl)
    as (evs & Ht & Hd & _).
  exists evs. split; assumption.
Defined.

(** ** Loading *)

(** A step before the allocation fails: nothing later is called. *)
Lemma load_stops_at_first_failure e comp w :
  ~ prerequisites_met e ->
  let r := wet_load_xwayland e comp w in
  r.1 = (-1, None) /\ live r.2 = live w /\ armed r.2 = armed w
  /\ Forall (fun ev => match ev with
                       | Zalloc _ | Listen _ _ _ _ | AddSignal _ _ _ => False
                       | _ => True
                       end) (drop (length (trace w)) (trace r.2)).
Proof.
  intros Hno r. subst r. unfold wet_load_xwayland. unfold_calls.
  destruct (Z.ltb_spec (load_xwayland_ret e) 0) as [Hlt | Hge]; cbn.
  { repeat split. rewrite drop_app_length. repeat constructor. }
  destruct (get_api_ret e) as [a|] eqn:Ha; cbn.
  2: { repeat split. flat_trace. rewrite drop_app_length.
       repeat constructor. }
  destruct (api_get_ret e) as [x|] eqn:Hx; cbn.
  2: { repeat split. flat_trace. rewrite drop_app_length.
       repeat constructor. }
  exfalso. apply Hno. unfold prerequisites_met. rewrite Ha, Hx.
  repeat split; [lia | by eexists | by eexists].
Qed.

(** [zalloc] fails: [listen] is not called and nothing is armed. *)
Lemma load_alloc_failure e comp w :
  prerequisites_met e ->
  zalloc_ok e = false ->
  let r := wet_load_xwayland e comp w in
  r.1 = (-1, None) /\ live r.2 = live w /\ armed r.2 = armed w
  /\ trace r.2 = trace w ++
       [LoadXwayland comp (load_xwayland_ret e); GetApi comp (get_api_ret e);
        ApiGet comp (api_get_ret e); Zalloc None].
Proof.
  intros (Hge & [a Ha] & [x Hx]) Hz r. subst r.
  unfold wet_load_xwayland. unfold_calls.
  destruct (Z.ltb_spec (load_xwayland_ret e) 0) as [Hlt | _]; [lia |].
  rewrite Ha, Hx, Hz. cbn. repeat split. flat_trace. reflexivity.
Qed.

(** [listen] fails: the function returns -1 right after it, nothing is
    armed, and the block [zalloc] returned stays allocated. *)
Lemma load_listen_failure e comp w :
  prerequisites_met e ->
  zalloc_ok e = true ->
  listen_ret e < 0 ->
  let r := wet_load_xwayland e comp w in
  r.1 = (-1, None)
  /\ live r.2 = live w ∪ {[next_handle w]}
  /\ armed r.2 = armed w
  /\ trace r.2 = trace w ++
       [LoadXwayland comp (load_xwayland_ret e); GetApi comp (get_api_ret e);
        ApiGet comp (api_get_ret e); Zalloc (Some (next_handle w));
        Listen (api_get_ret e) (Some (next_handle w)) Spawn_xserver
               (listen_ret e)].
Proof.
  intros (Hge & [a Ha] & [x Hx]) Hz Hl r. subst r.
  unfold wet_load_xwayland. unfold_calls.
  destruct (Z.ltb_spec (load_xwayland_ret e) 0) as [Hlt | _]; [lia |].
  rewrite Ha, Hx, Hz. cbn.
  destruct (Z.ltb_spec (listen_ret e) 0) as [_ | Hge']; [| lia].
  cbn. repeat split. flat_trace. reflexivity.
Qed.

(** C4, on the code: the module, the API and the handle are there, the
    allocation succeeds and [listen] fails.  [wet_load_xwayland] returns -1
    and arms nothing, so the remaining step is skipped, but the block it
    allocated for the supervisor is still allocated when it returns: the
    last call it made is the failed [listen]. *)
Theorem listen_failure_keeps_allocation :
  let r := wet_load_xwayland load_listen_fails (Some 0%nat) empty_world in
  r.1 = (-1, None)
  /\ trace r.2 =
       [LoadXwayland (Some 0%nat) 0; GetApi (Some 0%nat) (Some 1%nat);
        ApiGet (Some 0%nat) (Some 2%nat); Zalloc (Some 1%nat);
        Listen (Some 2%nat) (Some 1%nat) Spawn_xserver (-1)]
  /\ live r.2 = {[1%nat]}
  /\ (1%nat ∈ live r.2)
  /\ armed r.2 = [].
Proof.
  assert (Hp : prerequisites_met load_listen_fails).
  { repeat split; cbn; [lia | by eexists | by eexists]. }
  destruct (load_listen_failure load_listen_fails (Some 0%nat) empty_world
              Hp eq_refl eq_refl) as (Hr & Hl & Ha & Ht).
  cbn zeta. rewrite Hr, Ht, Hl, Ha. cbn.
  repeat split; set_solver.
Qed.

(** ** Readiness subscriptions over the supervisor's life *)

(** A successful load leaves the supervisor idle, with one subscription. *)
Lemma load_idle e comp h :
  load e comp = Some h -> idle h /\ armed_subscriptions h = 1%nat.
Proof.
  unfold load, wet_load_xwayland. unfold_calls.
  destruct (load_xwayland_ret e <? 0); cbn; [discriminate |].
  destruct (get_api_ret e); cbn; [| discriminate].
  destruct (api_get_ret e); cbn; [| discriminate].
  destruct (zalloc_ok e); cbn; [| discriminate].
  destruct (listen_ret e <? 0); cbn; [discriminate |].
  intros [= <-]. split; [| reflexivity].
  eexists. cbn. repeat split.
Qed.

(** The exit of a watched helper always arms one more subscription,
    whether or not the previous one was consumed. *)
Lemma reap_arms_one_more status h :
  pid (process (sup h)) ∈ watched (os h) ->
  cleanup (process (sup h)) = Some Xserver_cleanup ->
  armed_subscriptions (reap status h) = S (armed_subscriptions h).
Proof.
  intros Hw Hc. unfold reap, armed_subscriptions.
  rewrite bool_decide_eq_true_2 by exact Hw. rewrite Hc.
  rewrite xserver_cleanup_eq. cbn. rewrite length_app. cbn. lia.
Qed.

(** The signal reaches a supervisor whose only armed source is the
    recorded one: the source is consumed. *)
Lemma deliver_consumes_recorded (h : host) (s : nat) :
  armed (os h) = [s] ->
  sigusr1_source (sup h) = Some s ->
  deliver_sigusr1 h =
    mk_host (sup h)
      (mk_world (open_fds (os h)) [] (next_handle (os h)) (watched (os h))
         (live (os h))
         (trace (os h) ++
            [XserverLoaded (xwayland (sup h)) (client (sup h)) (wm_fd (sup h));
             SourceRemove (Some s)])).
Proof.
  intros Ha Hs. unfold deliver_sigusr1, handle_sigusr1. rewrite Ha, Hs.
  unfold_calls. rewrite Ha. f_equal. same_world.
  rewrite filter_cons_False by (intros Hne; apply Hne; reflexivity).
  reflexivity.
Qed.

(** The only watched process, the helper, exits. *)
Lemma reap_helper (status : Z) (h : host) :
  watched (os h) = [pid (process (sup h))] ->
  cleanup (process (sup h)) = Some Xserver_cleanup ->
  reap status h =
    mk_host
      (set_client None
         (set_sigusr1_source (Some (next_handle (os h))) (sup h)))
      (mk_world (open_fds (os h)) (armed (os h) ++ [next_handle (os h)])
         (S (next_handle (os h))) [] (live (os h))
         (trace (os h) ++
            [XserverExited (xwayland (sup h)) status;
             AddSignal SIGUSR1 Handle_sigusr1 (next_handle (os h))])).
Proof.
  intros Hw Hc. unfold reap. rewrite Hw, Hc.
  rewrite bool_decide_eq_true_2 by (apply list_elem_of_singleton; reflexivity).
  rewrite xserver_cleanup_eq.
  rewrite filter_cons_False by (intros Hne; apply Hne; reflexivity).
  reflexivity.
Qed.

(** A helper that signals readiness before it exits: the supervisor goes
    from one armed subscription to none and back to one, and is idle
    again after the exit. *)
Lemma ready_then_exit_cycle e display abstract_fd unix_fd status h
      sv0 sv1 wm0 wm1 :
  idle h ->
  sv_pair e = Some (sv0, sv1) ->
  wm_pair e = Some (wm0, wm1) ->
  fork_ret e ≠ 0 ->
  fork_ret e ≠ -1 ->
  exists h1 h2 h3,
    step (Spawn e display abstract_fd unix_fd) h = Some h1
    /\ step Sigusr1 h1 = Some h2
    /\ step (ChildExit status) h2 = Some h3
    /\ armed_subscriptions h1 = 1%nat
    /\ armed_subscriptions h2 = 0%nat
    /\ armed_subscriptions h3 = 1%nat
    /\ idle h3.
Proof.
  intros (s & Ha & Hs & Hc & Hw) Hsv Hwm H0 H1.
  destruct h as [wxw w]. cbn [sup os] in Ha, Hs, Hc, Hw.
  unfold step. cbn [sup os].
  rewrite (spawn_parent_eq _ _ _ _ _ _ _ _ _ _ Hsv Hwm H0 H1).
  cbn [fst snd]. rewrite Ha, Hw. cbn [app].
  eexists. eexists. eexists.
  split; [reflexivity |].
  split; [rewrite (deliver_consumes_recorded _ s) by (cbn; first [reflexivity | assumption]);
          reflexivity |].
  split; [rewrite reap_helper by (cbn; first [reflexivity | assumption]); reflexivity |].
  unfold armed_subscriptions, idle. cbn.
  repeat split. exists (next_handle w). cbn. repeat split. exact Hc.
Qed.

(** C2, on the code: after a successful load one subscription is armed;
    the helper is spawned and exits without ever signalling readiness; the
    exit handler arms a second subscription while the first is still armed,
    so two are armed, and the struct only records the second. *)
Theorem exit_before_readiness_arms_a_second_subscription :
  exists h h',
    load load_ok (Some 0%nat) = Some h
    /\ armed_subscriptions h = 1%nat
    /\ run [Spawn env_ok ":0" 0 11; ChildExit 0] h = Some h'
    /\ armed (os h') = [2%nat; 3%nat]
    /\ armed_subscriptions h' = 2%nat
    /\ sigusr1_source (sup h') = Some 3%nat.
Proof.
  do 2 eexists. split; [vm_compute; reflexivity |].
  split; [reflexivity |].
  split; [vm_compute; reflexivity |].
  repeat split.
Qed.

(** * Further properties of the code *)

(** ** The descriptor strings *)

Lemma string_of_uint_length (d : Decimal.uint) :
  String.length (NilEmpty.string_of_uint d) = Decimal.nb_digits d.
Proof. induction d; cbn; congruence. Qed.

Lemma nilzero_string_of_uint_length (d : Decimal.uint) :
  d <> Decimal.Nil ->
  String.length (NilZero.string_of_uint d) = Decimal.nb_digits d.
Proof.
  destruct d; intros H; try congruence; apply string_of_uint_length.
Qed.

Lemma usize_nb_digits (d : Decimal.uint) :
  Unsigned.usize d = N.of_nat (Decimal.nb_digits d).
Proof. induction d; cbn [Unsigned.usize Decimal.nb_digits]; lia. Qed.

(** A numeral whose leading digit is not zero is at least the power of
    ten with as many digits. *)
Lemma of_uint_lower_bound (d : Decimal.uint) :
  d <> Decimal.Nil -> Decimal.nzhead d = d ->
  (10 ^ N.of_nat (Decimal.nb_digits d - 1) <= Pos.of_uint d)%N.
Proof.
  intros Hnil Hnz. rewrite Unsigned.of_uint_alt.
  destruct d as [|d|d|d|d|d|d|d|d|d|d]; try congruence.
  1: { exfalso. cbn in Hnz. pose proof (nb_digits_nzhead d) as H.
       rewrite Hnz in H. cbn in H. lia. }
  all: unfold Decimal.rev; cbn [Decimal.revapp];
    rewrite Unsigned.of_lu_revapp, usize_nb_digits; cbn [Decimal.nb_digits];
    replace (S (Decimal.nb_digits d) - 1)%nat with (Decimal.nb_digits d)
      by lia;
    cbn [Unsigned.of_lu];
    pose proof (N.pow_nonzero 10 (N.of_nat (Decimal.nb_digits d))); lia.
Qed.

(** Below ten to the tenth, a positive number prints with at most ten
    digits. *)
Lemma to_uint_digits (p : positive) :
  Z.pos p < 10 ^ 10 -> (Decimal.nb_digits (Pos.to_uint p) <= 10)%nat.
Proof.
  intros Hp.
  pose proof (Unsigned.of_to p) as Hof.
  pose proof (Unsigned.to_of (Pos.to_uint p)) as Hto. rewrite Hof in Hto.
  cbn [N.to_uint] in Hto.
  assert (Hnz : Decimal.nzhead (Pos.to_uint p) = Pos.to_uint p).
  { unfold Decimal.unorm in Hto.
    destruct (Decimal.nzhead (Pos.to_uint p)) eqn:E; try congruence.
    exfalso. apply (Unsigned.to_uint_nonzero p). congruence. }
  pose proof (of_uint_lower_bound _ (Unsigned.to_uint_nonnil p) Hnz) as Hlb.
  rewrite Hof in Hlb.
  destruct (le_lt_dec (Decimal.nb_digits (Pos.to_uint p)) 10) as [|Hgt];
    [assumption |].
  exfalso.
  assert (10 ^ 10 <= 10 ^ N.of_nat (Decimal.nb_digits (Pos.to_uint p) - 1))%N
    by (apply N.pow_le_mono_r; lia).
  lia.
Qed.

Lemma fmt_d_length (v : Z) :
  INT_MIN <= v <= INT_MAX -> (String.length (fmt_d v) <= 11)%nat.
Proof.
  unfold INT_MIN, INT_MAX, fmt_d. intros Hv.
  destruct v as [|p|p]; cbn [Z.to_int NilZero.string_of_int].
  - cbn. lia.
  - rewrite nilzero_string_of_uint_length by apply Unsigned.to_uint_nonnil.
    pose proof (to_uint_digits p). lia.
  - cbn [String.length].
    rewrite nilzero_string_of_uint_length by apply Unsigned.to_uint_nonnil.
    pose proof (to_uint_digits p). lia.
Qed.

Lemma substring_all (n : nat) (s : string) :
  (String.length s <= n)%nat -> String.substring 0 n s = s.
Proof.
  revert n. induction s as [|c s IH]; intros [|n] H; cbn in *;
    try reflexivity; try lia.
  f_equal. apply IH. lia.
Qed.

Lemma snprintf_d_int (v : Z) :
  INT_MIN <= v <= INT_MAX -> snprintf_d 12 v = fmt_d v.
Proof.
  intros Hv. unfold snprintf_d. apply substring_all.
  pose proof (fmt_d_length v Hv). cbn. lia.
Qed.

Lemma fmt_d_parse (v : Z) :
  Z.of_int <$> NilZero.int_of_string (fmt_d v) = Some v.
Proof.
  unfold fmt_d. rewrite NilZero.isi.
  - cbn. f_equal. apply DecimalZ.of_to.
  - destruct v; cbn; try discriminate.
    intros [= H]. exact (Unsigned.to_uint_nonnil _ H).
  - destruct v; cbn; try discriminate.
    intros [= H]. exact (Unsigned.to_uint_nonnil _ H).
Qed.

(** X1: the 12-byte buffers [s], [abstract_fd_str], [unix_fd_str] and
    [wm_fd_str] are large enough: [snprintf] with ["%d"] never truncates
    an [int]. *)
Theorem snprintf_d_fits (v : Z) :
  INT_MIN <= v <= INT_MAX ->
  snprintf_d 12 v = fmt_d v /\ (String.length (snprintf_d 12 v) <= 11)%nat.
Proof.
  intros Hv. rewrite snprintf_d_int by assumption.
  split; [reflexivity | apply fmt_d_length; assumption].
Qed.

Lemma snprintf_d_fits_witness :
  INT_MIN <= -2147483648 <= INT_MAX
  /\ snprintf_d 12 (-2147483648) = "-2147483648".
Proof.
  assert (H : INT_MIN <= -2147483648 <= INT_MAX)
    by (unfold INT_MIN, INT_MAX; lia).
  split; [exact H |].
  rewrite (proj1 (snprintf_d_fits (-2147483648) H)). reflexivity.
Defined.

(** X2: reading the formatted string back as a decimal number gives the
    descriptor that was formatted, so the server is told the right
    descriptor and two descriptors never get the same string. *)
Theorem snprintf_d_round_trip (v : Z) :
  INT_MIN <= v <= INT_MAX ->
  Z.of_int <$> NilZero.int_of_string (snprintf_d 12 v) = Some v.
Proof.
  intros Hv. rewrite snprintf_d_int by assumption. apply fmt_d_parse.
Qed.

Lemma snprintf_d_round_trip_witness :
  INT_MIN <= 7 <= INT_MAX
  /\ Z.of_int <$> NilZero.int_of_string (snprintf_d 12 7) = Some 7.
Proof.
  assert (H : INT_MIN <= 7 <= INT_MAX) by (unfold INT_MIN, INT_MAX; lia).
  split; [exact H | exact (snprintf_d_round_trip 7 H)].
Defined.

(** ** The child branch *)

Lemma child_dups_ok_true e abstract_fd :
  child_dups_ok e abstract_fd = true ->
  (dup_sv e <? 0) = false
  /\ (dup_unix e <? 0) = false
  /\ (dup_wm e <? 0) = false
  /\ ((abstract_fd =? 0) = true \/
      ((abstract_fd =? 0) = false /\ (dup_abstract e <? 0) = false)).
Proof.
  unfold child_dups_ok. rewrite !andb_true_iff, orb_true_iff.
  rewrite !Z.leb_le, !Z.ltb_ge.
  intros (((Hs & Ha) & Hu) & Hw). repeat split; try assumption.
  destruct (abstract_fd =? 0); [left; reflexivity | right].
  destruct Ha as [Ha | Ha]; [discriminate Ha |]. split; [reflexivity |].
  exact Ha.
Qed.

(** X3: when every [dup] succeeds and [execv] does not return, the child makes
    exactly these calls: the [dup] of the display pair's child end, the
    export of the duplicate's number as WAYLAND_SOCKET, the [dup] of the
    abstract socket when one was given, of the unix socket and of the
    window-manager pair's child end, the [signal] that ignores SIGUSR1, and
    the [execv] of the configured server (the compiled-in path when the
    configuration has none).  The numbers on the command line are those of
    the duplicates, not of the descriptors passed in, and the duplicates are
    the only descriptors the child opened. *)
Theorem child_reaches_exec :
  forall e display abstract_fd unix_fd sv1 wm1 w,
    child_dups_ok e abstract_fd = true ->
    execv_error e = None ->
    let r := xserver_child e display abstract_fd unix_fd sv1 wm1 w in
    r.1 = Exec (child_xserver e) (child_argv e display abstract_fd)
    /\ trace r.2 = trace w
         ++ child_setup e abstract_fd unix_fd sv1 wm1
         ++ [Execv (child_xserver e) (child_argv e display abstract_fd)]
    /\ open_fds r.2 =
         open_fds w ∪ {[dup_sv e]}
           ∪ (if abstract_fd =? 0 then ∅ else {[dup_abstract e]})
           ∪ {[dup_unix e]} ∪ {[dup_wm e]}
    /\ armed r.2 = armed w
    /\ watched r.2 = watched w.
Proof.
  intros e display abstract_fd unix_fd sv1 wm1 w Hok Hex r. subst r.
  apply child_dups_ok_true in Hok as (Hs & Hu & Hw & Ha).
  unfold xserver_child, child_setup, child_argv, child_xserver, listen_args,
    build_argv.
  unfold_calls. rewrite Hs. cbn -[snprintf_d nl].
  destruct Ha as [Ha | [Ha Hd]]; rewrite Ha; cbn -[snprintf_d nl].
  - rewrite Hu. cbn -[snprintf_d nl]. rewrite Hw. cbn -[snprintf_d nl].
    rewrite Hex.
    destruct (config_disable_ac e) as [[|]|]; cbn -[snprintf_d nl];
      (repeat split; [flat_trace; reflexivity | set_solver]).
  - rewrite Hd. cbn -[snprintf_d nl]. rewrite Hu. cbn -[snprintf_d nl].
    rewrite Hw. cbn -[snprintf_d nl]. rewrite Hex.
    destruct (config_disable_ac e) as [[|]|]; cbn -[snprintf_d nl];
      (repeat split; flat_trace; reflexivity).
Qed.

Lemma child_reaches_exec_witness :
  child_dups_ok (env_child None) 5 = true
  /\ execv_error (env_child None) = None
  /\ (xserver_child (env_child None) ":1" 5 11 4 6 empty_world).1 =
       Exec "/usr/bin/Xwayland"
            ["/usr/bin/Xwayland"; ":1"; "-rootless"; "-core"; "-listen"; "9";
             "-wm"; "10"; "-terminate"; "-listen"; "8"].
Proof.
  repeat (split; [reflexivity |]).
  destruct (child_reaches_exec (env_child None) ":1" 5 11 4 6 empty_world
              eq_refl eq_refl) as (Hr & _).
  rewrite Hr. reflexivity.
Defined.

(** X4: when [execv] returns, the child logs the path, then every entry of the
    vector from index 0 on (so the path appears twice), each followed by a
    space, then the failure line with the system's error text, and leaves
    with [_exit(EXIT_FAILURE)]; it does not return into the compositor's
    code. *)
Theorem child_exec_failure_logs :
  forall e display abstract_fd unix_fd sv1 wm1 w err,
    child_dups_ok e abstract_fd = true ->
    execv_error e = Some err ->
    let r := xserver_child e display abstract_fd unix_fd sv1 wm1 w in
    let argv := child_argv e display abstract_fd in
    r.1 = Exited EXIT_FAILURE
    /\ trace r.2 = trace w
         ++ child_setup e abstract_fd unix_fd sv1 wm1
         ++ [Execv (child_xserver e) argv; Log (child_xserver e +:+ " ")]
         ++ map (fun a => LogContinue (a +:+ " ")) argv
         ++ [Log (nl +:+ "Failed to launch Xwayland: " +:+ err +:+ nl);
             Exit_ EXIT_FAILURE].
Proof.
  intros e display abstract_fd unix_fd sv1 wm1 w err Hok Hex r argv.
  subst r argv.
  apply child_dups_ok_true in Hok as (Hs & Hu & Hw & Ha).
  unfold xserver_child, child_setup, child_argv, child_xserver, listen_args,
    build_argv.
  unfold_calls. rewrite Hs. cbn -[snprintf_d nl].
  destruct Ha as [Ha | [Ha Hd]]; rewrite Ha; cbn -[snprintf_d nl].
  - rewrite Hu. cbn -[snprintf_d nl]. rewrite Hw. cbn -[snprintf_d nl].
    rewrite Hex.
    destruct (config_disable_ac e) as [[|]|];
      cbn -[snprintf_d nl]; unfold_calls; cbn -[snprintf_d nl];
      (split; [reflexivity | flat_trace; reflexivity]).
  - rewrite Hd. cbn -[snprintf_d nl]. rewrite Hu. cbn -[snprintf_d nl].
    rewrite Hw. cbn -[snprintf_d nl]. rewrite Hex.
    destruct (config_disable_ac e) as [[|]|];
      cbn -[snprintf_d nl]; unfold_calls; cbn -[snprintf_d nl];
      (split; [reflexivity | flat_trace; reflexivity]).
Qed.

Lemma child_exec_failure_logs_witness :
  child_dups_ok
    (mk_spawn_env (Some (3, 4)) (Some (5, 6)) 0 7 8 9 10 "/usr/bin/Xwayland"
                  (Some "/opt/X") (Some true) "" (Some "No such file") None)
    0 = true
  /\ (xserver_child
        (mk_spawn_env (Some (3, 4)) (Some (5, 6)) 0 7 8 9 10
                      "/usr/bin/Xwayland" (Some "/opt/X") (Some true) ""
                      (Some "No such file") None)
        ":0" 0 11 4 6 empty_world).1 = Exited 1.
Proof.
  split; [reflexivity |].
  destruct (child_exec_failure_logs
              (mk_spawn_env (Some (3, 4)) (Some (5, 6)) 0 7 8 9 10
                            "/usr/bin/Xwayland" (Some "/opt/X") (Some true)
                            "" (Some "No such file") None)
              ":0" 0 11 4 6 empty_world "No such file" eq_refl eq_refl)
    as (Hr & _).
  exact Hr.
Defined.

(** X5: when a [dup] fails, the child stops at once with
    [_exit(EXIT_FAILURE)]: it duplicated only descriptors that come before
    the failing one, it neither touched the signal disposition nor logged
    anything, and no [execv] was attempted. *)
Theorem child_dup_failure_exits :
  forall e display abstract_fd unix_fd sv1 wm1 w,
    child_dups_ok e abstract_fd = false ->
    let r := xserver_child e display abstract_fd unix_fd sv1 wm1 w in
    exists evs,
      r.1 = Exited EXIT_FAILURE
      /\ trace r.2 = trace w ++ evs ++ [Exit_ EXIT_FAILURE]
      /\ Forall (fun ev => match ev with
                           | Dup _ _ | Setenv _ _ => True
                           | _ => False
                           end) evs
      /\ dup_fds evs `prefix_of`
           ([sv1] ++ (if abstract_fd =? 0 then [] else [abstract_fd])
                  ++ [unix_fd; wm1])
      /\ match last evs with
         | Some (Dup _ res) => res < 0
         | _ => False
         end.
Proof.
  intros e display abstract_fd unix_fd sv1 wm1 w Hno r. subst r.
  unfold child_dups_ok in Hno. unfold xserver_child. unfold_calls.
  pose (d1 := Dup sv1 (dup_sv e)).
  pose (env := Setenv "WAYLAND_SOCKET" (snprintf_d 12 (dup_sv e))).
  pose (d2 := Dup abstract_fd (dup_abstract e)).
  pose (d3 := Dup unix_fd (dup_unix e)).
  pose (d4 := Dup wm1 (dup_wm e)).
  destruct (Z.ltb_spec (dup_sv e) 0) as [Hs | Hs]; cbn -[snprintf_d nl].
  { exists [d1]. subst d1. split; [reflexivity |].
    split; [flat_trace; reflexivity |].
    repeat split; [repeat constructor | by eexists | exact Hs]. }
  destruct (abstract_fd =? 0) eqn:Ha; cbn -[snprintf_d nl].
  - destruct (Z.ltb_spec (dup_unix e) 0) as [Hu | Hu]; cbn -[snprintf_d nl].
    { exists [d1; env; d3]. subst d1 env d3. split; [reflexivity |].
      split; [flat_trace; reflexivity |].
      repeat split; [repeat constructor | by eexists | exact Hu]. }
    destruct (Z.ltb_spec (dup_wm e) 0) as [Hw | Hw]; cbn -[snprintf_d nl].
    { exists [d1; env; d3; d4]. subst d1 env d3 d4. split; [reflexivity |].
      split; [flat_trace; reflexivity |].
      repeat split; [repeat constructor | by eexists | exact Hw]. }
    exfalso. cbn in Hno.
    rewrite !andb_false_iff, !Z.leb_gt in Hno. lia.
  - destruct (Z.ltb_spec (dup_abstract e) 0) as [Hd | Hd];
      cbn -[snprintf_d nl].
    { exists [d1; env; d2]. subst d1 env d2. split; [reflexivity |].
      split; [flat_trace; reflexivity |].
      repeat split; [repeat constructor | by eexists | exact Hd]. }
    destruct (Z.ltb_spec (dup_unix e) 0) as [Hu | Hu]; cbn -[snprintf_d nl].
    { exists [d1; env; d2; d3]. subst d1 env d2 d3. split; [reflexivity |].
      split; [flat_trace; reflexivity |].
      repeat split; [repeat constructor | by eexists | exact Hu]. }
    destruct (Z.ltb_spec (dup_wm e) 0) as [Hw | Hw]; cbn -[snprintf_d nl].
    { exists [d1; env; d2; d3; d4]. subst d1 env d2 d3 d4.
      split; [reflexivity |]. split; [flat_trace; reflexivity |].
      repeat split; [repeat constructor | by eexists | exact Hw]. }
    exfalso. cbn in Hno.
    rewrite !andb_false_iff, !Z.leb_gt in Hno. lia.
Qed.

Lemma child_dup_failure_exits_witness :
  child_dups_ok
    (mk_spawn_env (Some (3, 4)) (Some (5, 6)) 0 7 (-1) 9 10
                  "/usr/bin/Xwayland" None None "" None None) 5 = false
  /\ (xserver_child
        (mk_spawn_env (Some (3, 4)) (Some (5, 6)) 0 7 (-1) 9 10
                      "/usr/bin/Xwayland" None None "" None None)
        ":0" 5 11 4 6 empty_world).1 = Exited 1.
Proof.
  split; [reflexivity |].
  destruct (child_dup_failure_exits
              (mk_spawn_env (Some (3, 4)) (Some (5, 6)) 0 7 (-1) 9 10
                            "/usr/bin/Xwayland" None None "" None None)
              ":0" 5 11 4 6 empty_world eq_refl)
    as (evs & Hr & _).
  exact Hr.
Defined.

(** The child leaves the event loop, the process watch and the heap of the
    image it inherited as they were, and ends in one of two ways. *)
Lemma xserver_child_cases e display abstract_fd unix_fd sv1 wm1 w :
  let r := xserver_child e display abstract_fd unix_fd sv1 wm1 w in
  armed r.2 = armed w /\ next_handle r.2 = next_handle w
  /\ watched r.2 = watched w /\ live r.2 = live w
  /\ match r.1 with
     | Exec p a =>
         p = child_xserver e /\ a = child_argv e display abstract_fd
         /\ child_dups_ok e abstract_fd = true /\ execv_error e = None
     | Exited s =>
         s = EXIT_FAILURE
         /\ (child_dups_ok e abstract_fd = false \/ is_Some (execv_error e))
     | Return _ | Aborted => False
     end
  /\ Forall (fun ev => match ev with
                       | Close _ | ClientCreate _ _ _ | WatchProcess _
                       | Fork _ | Socketpair _ => False
                       | _ => True
                       end) (drop (length (trace w)) (trace r.2)).
Proof.
  cbn zeta.
  unfold xserver_child, build_argv, child_dups_ok, child_argv, child_xserver,
    listen_args.
  rewrite !(Z.leb_antisym _ 0). unfold_calls.
  destruct (dup_sv e <? 0); cbn -[snprintf_d nl].
  { repeat split; [by left |].
    flat_trace. rewrite drop_app_length. repeat constructor. }
  destruct (abstract_fd =? 0); cbn -[snprintf_d nl].
  - destruct (dup_unix e <? 0); cbn -[snprintf_d nl].
    { repeat split; [by left |].
      flat_trace. rewrite drop_app_length. repeat constructor. }
    destruct (dup_wm e <? 0); cbn -[snprintf_d nl].
    { repeat split; [by left |].
      flat_trace. rewrite drop_app_length. repeat constructor. }
    destruct (config_disable_ac e) as [[|]|], (execv_error e);
      cbn -[snprintf_d nl]; unfold_calls; cbn -[snprintf_d nl];
      (repeat split; [try (right; by eexists) ..|];
       flat_trace; rewrite drop_app_length; repeat constructor).
  - destruct (dup_abstract e <? 0); cbn -[snprintf_d nl].
    { repeat split; [by left |].
      flat_trace. rewrite drop_app_length. repeat constructor. }
    destruct (dup_unix e <? 0); cbn -[snprintf_d nl].
    { repeat split; [by left |].
      flat_trace. rewrite drop_app_length. repeat constructor. }
    destruct (dup_wm e <? 0); cbn -[snprintf_d nl].
    { repeat split; [by left |].
      flat_trace. rewrite drop_app_length. repeat constructor. }
    destruct (config_disable_ac e) as [[|]|], (execv_error e);
      cbn -[snprintf_d nl]; unfold_calls; cbn -[snprintf_d nl];
      (repeat split; [try (right; by eexists) ..|];
       flat_trace; rewrite drop_app_length; repeat constructor).
Qed.

(** In the process where [fork] returned 0, [spawn_xserver] is the child
    branch run after the two socketpairs and the fork. *)
Lemma spawn_child_eq e wxw display abstract_fd unix_fd w sv0 sv1 wm0 wm1 :
  sv_pair e = Some (sv0, sv1) ->
  wm_pair e = Some (wm0, wm1) ->
  fork_ret e = 0 ->
  spawn_xserver e wxw display abstract_fd unix_fd w =
    let r := xserver_child e display abstract_fd unix_fd sv1 wm1
               (mk_world (open_fds w ∪ {[sv0]} ∪ {[sv1]} ∪ {[wm0]} ∪ {[wm1]})
                  (armed w) (next_handle w) (watched w) (live w)
                  (trace w ++
                     [Socketpair (Some (sv0, sv1));
                      Socketpair (Some (wm0, wm1)); Fork 0])) in
    (r.1, wxw, r.2).
Proof.
  intros Hsv Hwm Hf. unfold spawn_xserver.
  unfold socketpair, fork, mbind, mret, M_bind, M_ret.
  rewrite Hsv, Hwm, Hf.
  cbn [fst snd emit with_fds open_fds armed next_handle watched live trace
       Z.eqb].
  match goal with
  | |- context [xserver_child _ _ _ _ _ _ ?w1] =>
      replace w1 with
        (mk_world (open_fds w ∪ {[sv0]} ∪ {[sv1]} ∪ {[wm0]} ∪ {[wm1]})
           (armed w) (next_handle w) (watched w) (live w)
           (trace w ++
              [Socketpair (Some (sv0, sv1)); Socketpair (Some (wm0, wm1));
               Fork 0]))
        by (symmetry; same_world)
  end.
  destruct (xserver_child _ _ _ _ _ _ _) as [o w']. reflexivity.
Qed.

(** X6: in the child, [spawn_xserver] never returns to the xwayland module: the
    process either becomes the server or ends with the failure status.  The
    child's copy of the supervisor is left as it was: no descriptor is
    closed, no client is created, nothing is watched. *)
Theorem spawn_in_child_never_returns :
  forall e wxw display abstract_fd unix_fd w sv0 sv1 wm0 wm1,
    sv_pair e = Some (sv0, sv1) ->
    wm_pair e = Some (wm0, wm1) ->
    fork_ret e = 0 ->
    let r := spawn_xserver e wxw display abstract_fd unix_fd w in
    match r.1.1 with
    | Exec p a =>
        p = child_xserver e /\ a = child_argv e display abstract_fd
        /\ child_dups_ok e abstract_fd = true /\ execv_error e = None
    | Exited s =>
        s = EXIT_FAILURE
        /\ (child_dups_ok e abstract_fd = false \/ is_Some (execv_error e))
    | Return _ | Aborted => False
    end
    /\ r.1.2 = wxw
    /\ armed r.2 = armed w
    /\ watched r.2 = watched w
    /\ Forall (fun ev => match ev with
                         | Close _ | ClientCreate _ _ _ | WatchProcess _
                         | Fork _ | Socketpair _ => False
                         | _ => True
                         end) (drop (length (trace w) + 3) (trace r.2)).
Proof.
  intros e wxw display abstract_fd unix_fd w sv0 sv1 wm0 wm1 Hsv Hwm Hf r.
  subst r. rewrite (spawn_child_eq _ _ _ _ _ _ _ _ _ _ Hsv Hwm Hf).
  cbn zeta. cbn [fst snd].
  set (w3 := mk_world _ _ _ _ _ _).
  pose proof (xserver_child_cases e display abstract_fd unix_fd sv1 wm1 w3)
    as (Ha & _ & Hw & _ & Hr & Hev).
  assert (Hlen : (length (trace w) + 3)%nat = length (trace w3))
    by (subst w3; cbn; rewrite length_app; reflexivity).
  rewrite Hlen, Ha, Hw. repeat split; assumption.
Qed.

Lemma spawn_in_child_never_returns_witness :
  sv_pair (env_child None) = Some (3, 4)
  /\ wm_pair (env_child None) = Some (5, 6)
  /\ fork_ret (env_child None) = 0
  /\ match (spawn_xserver (env_child None) wxw_running ":0" 5 11
                          empty_world).1.1 with
     | Exec p _ => p = "/usr/bin/Xwayland"
     | Exited s => s = EXIT_FAILURE
     | _ => False
     end.
Proof.
  repeat (split; [reflexivity |]).
  destruct (spawn_in_child_never_returns (env_child None) wxw_running ":0" 5
              11 empty_world 3 4 5 6 eq_refl eq_refl eq_refl) as (Hr & _).
  destruct ((spawn_xserver (env_child None) wxw_running ":0" 5 11
                           empty_world).1.1);
    try exact Hr; tauto.
Defined.

(** ** What a spawn leaves alone *)

(** The fields of the world and of the struct a spawn does not write. *)
Lemma spawn_frame :
  forall e wxw display abstract_fd unix_fd w,
    let r := spawn_xserver e wxw display abstract_fd unix_fd w in
    armed r.2 = armed w
    /\ next_handle r.2 = next_handle w
    /\ live r.2 = live w
    /\ compositor r.1.2 = compositor wxw
    /\ api r.1.2 = api wxw
    /\ xwayland r.1.2 = xwayland wxw
    /\ sigusr1_source r.1.2 = sigusr1_source wxw
    /\ cleanup (process r.1.2) = cleanup (process wxw)
    /\ (r.1.2 = wxw /\ watched r.2 = watched w
        \/ is_Some (sv_pair e) /\ is_Some (wm_pair e)
           /\ fork_ret e ≠ 0 /\ fork_ret e ≠ -1
           /\ r.1.1 = Return (fork_ret e)
           /\ watched r.2 = watched w ++ [fork_ret e]).
Proof.
  intros e wxw display abstract_fd unix_fd w r. subst r.
  destruct (sv_pair e) as [[sv0 sv1]|] eqn:Hsv.
  2: { rewrite (spawn_no_display_channel _ _ _ _ _ _ Hsv). cbn.
       repeat split. left. by split. }
  destruct (wm_pair e) as [[wm0 wm1]|] eqn:Hwm.
  2: { rewrite (spawn_no_wm_channel _ _ _ _ _ _ _ _ Hsv Hwm). cbn.
       repeat split. left. by split. }
  destruct (Z.eq_dec (fork_ret e) 0) as [H0 | H0].
  { rewrite (spawn_child_eq _ _ _ _ _ _ _ _ _ _ Hsv Hwm H0). cbn zeta.
    cbn [fst snd].
    match goal with
    | |- context [xserver_child _ _ _ _ _ _ ?w3] =>
        pose proof (xserver_child_cases e display abstract_fd unix_fd sv1 wm1
                      w3) as (Ha & Hn & Hw & Hl & _ & _)
    end.
    rewrite Ha, Hn, Hl, Hw. cbn. repeat split. left. by split. }
  destruct (Z.eq_dec (fork_ret e) (-1)) as [H1 | H1].
  { rewrite (spawn_fork_failure_eq _ _ _ _ _ _ _ _ _ _ Hsv Hwm H1). cbn.
    repeat split. left. by split. }
  rewrite (spawn_parent_eq _ _ _ _ _ _ _ _ _ _ Hsv Hwm H0 H1). cbn.
  repeat split. right. repeat split; try assumption; by eexists.
Qed.

(** X7: whatever the system calls return and in whichever process it runs,
    [spawn_xserver] arms and removes no signal source and allocates
    nothing, and it keeps the compositor, API and module pointers, the
    recorded signal source and the exit callback of the struct.  It writes
    the struct (client, window-manager descriptor, process id) only when
    both socket pairs were created and [fork] returned a child's id, in
    which case it returns that id. *)
Theorem spawn_keeps_subscriptions_and_wiring :
  forall e wxw display abstract_fd unix_fd w,
    let r := spawn_xserver e wxw display abstract_fd unix_fd w in
    armed r.2 = armed w
    /\ next_handle r.2 = next_handle w
    /\ live r.2 = live w
    /\ compositor r.1.2 = compositor wxw
    /\ api r.1.2 = api wxw
    /\ xwayland r.1.2 = xwayland wxw
    /\ sigusr1_source r.1.2 = sigusr1_source wxw
    /\ cleanup (process r.1.2) = cleanup (process wxw)
    /\ (r.1.2 = wxw /\ watched r.2 = watched w
        \/ is_Some (sv_pair e) /\ is_Some (wm_pair e)
           /\ fork_ret e ≠ 0 /\ fork_ret e ≠ -1
           /\ r.1.1 = Return (fork_ret e)
           /\ watched r.2 = watched w ++ [fork_ret e]).
Proof.
  intros e wxw display abstract_fd unix_fd w. apply spawn_frame.
Qed.

(** X8: when the second socket pair cannot be created, the first pair is not
    closed: [spawn_xserver] returns 1 with both of its descriptors still
    open in the compositor and no record of them in the struct.  (When the
    first pair cannot be created no descriptor was opened.) *)
Theorem wm_channel_failure_keeps_display_pair :
  forall e wxw display abstract_fd unix_fd w sv0 sv1,
    sv_pair e = Some (sv0, sv1) ->
    wm_pair e = None ->
    let r := spawn_xserver e wxw display abstract_fd unix_fd w in
    r.1.1 = Return 1
    /\ open_fds r.2 = open_fds w ∪ {[sv0; sv1]}
    /\ sv0 ∈ open_fds r.2 /\ sv1 ∈ open_fds r.2
    /\ trace r.2 = trace w ++
         [Socketpair (Some (sv0, sv1)); Socketpair None;
          Log ("X wm connection socketpair failed" +:+ nl)]
    /\ r.1.2 = wxw.
Proof.
  intros e wxw display abstract_fd unix_fd w sv0 sv1 Hsv Hwm r. subst r.
  rewrite (spawn_no_wm_channel _ _ _ _ _ _ _ _ Hsv Hwm). cbn.
  repeat split; try (flat_trace; reflexivity); set_solver.
Qed.

Lemma wm_channel_failure_keeps_display_pair_witness :
  sv_pair env_no_channel = Some (3, 4)
  /\ wm_pair env_no_channel = None
  /\ 3 ∈ open_fds (spawn_xserver env_no_channel wxw_running ":0" 0 11
                                 empty_world).2
  /\ 4 ∈ open_fds (spawn_xserver env_no_channel wxw_running ":0" 0 11
                                 empty_world).2.
Proof.
  repeat (split; [reflexivity |]).
  destruct (wm_channel_failure_keeps_display_pair env_no_channel wxw_running
              ":0" 0 11 empty_world 3 4 eq_refl eq_refl)
    as (_ & _ & H3 & H4 & _).
  split; assumption.
Defined.

(** ** Loading, step by step *)

(** X9: when every step succeeds, [wet_load_xwayland] returns 0 after exactly
    these calls: the module load, the API lookup, [get], [zalloc], [listen]
    with the new block and [spawn_xserver] as the callback, and only then
    the arming of the SIGUSR1 source, so the struct [listen] receives has no
    source recorded yet.  The struct it leaves holds the compositor, the
    API, the module handle, [xserver_cleanup] as exit callback and the new
    source; client, descriptor and process id are zero. *)
Theorem load_success_effects :
  forall e comp w,
    load_steps_ok e = true ->
    let r := wet_load_xwayland e comp w in
    let b := next_handle w in
    r.1 = (0, Some (mk_wxw comp (get_api_ret e) (api_get_ret e) (Some (S b))
                           None 0 (mk_process 0 (Some Xserver_cleanup))))
    /\ trace r.2 = trace w ++
         [LoadXwayland comp (load_xwayland_ret e);
          GetApi comp (get_api_ret e); ApiGet comp (api_get_ret e);
          Zalloc (Some b);
          Listen (api_get_ret e) (Some b) Spawn_xserver (listen_ret e);
          AddSignal SIGUSR1 Handle_sigusr1 (S b)]
    /\ armed r.2 = armed w ++ [S b]
    /\ live r.2 = live w ∪ {[b]}
    /\ open_fds r.2 = open_fds w
    /\ watched r.2 = watched w.
Proof.
  intros e comp w Hok r b. subst r b.
  unfold load_steps_ok in Hok.
  rewrite !andb_true_iff, !bool_decide_eq_true, !Z.leb_le in Hok.
  destruct Hok as ((((Hl & [a Ha]) & [x Hx]) & Hz) & Hs).
  unfold wet_load_xwayland. unfold_calls.
  destruct (Z.ltb_spec (load_xwayland_ret e) 0) as [Hlt | _]; [lia |].
  rewrite Ha, Hx, Hz. cbn.
  destruct (Z.ltb_spec (listen_ret e) 0) as [Hlt | _]; [lia |].
  cbn. repeat split. flat_trace. reflexivity.
Qed.

Lemma load_success_effects_witness :
  load_steps_ok load_ok = true
  /\ (wet_load_xwayland load_ok (Some 0%nat) empty_world).1.1 = 0
  /\ armed (wet_load_xwayland load_ok (Some 0%nat) empty_world).2 = [2%nat].
Proof.
  split; [reflexivity |].
  destruct (load_success_effects load_ok (Some 0%nat) empty_world eq_refl)
    as (Hr & _ & Ha & _).
  rewrite Hr, Ha. split; reflexivity.
Defined.

(** X10: when any step fails, [wet_load_xwayland] returns -1 and hands no
    struct to anyone; it has armed no signal source and has not touched
    descriptors or watched processes, and the heap holds at most the one
    block [zalloc] returned. *)
Theorem load_failure_arms_nothing :
  forall e comp w,
    load_steps_ok e = false ->
    let r := wet_load_xwayland e comp w in
    r.1 = (-1, None)
    /\ armed r.2 = armed w
    /\ open_fds r.2 = open_fds w
    /\ watched r.2 = watched w
    /\ live r.2 ⊆ live w ∪ {[next_handle w]}
    /\ Forall (fun ev => match ev with
                         | AddSignal _ _ _ => False
                         | Listen _ _ _ res => res < 0
                         | _ => True
                         end) (drop (length (trace w)) (trace r.2)).
Proof.
  intros e comp w Hno r. subst r.
  unfold load_steps_ok in Hno. unfold wet_load_xwayland. unfold_calls.
  destruct (Z.ltb_spec (load_xwayland_ret e) 0) as [Hlt | Hl]; cbn.
  { repeat split; [set_solver |].
    rewrite drop_app_length. repeat constructor. }
  destruct (get_api_ret e) as [a|]; cbn.
  2: { repeat split; [set_solver |].
       flat_trace. rewrite drop_app_length. repeat constructor. }
  destruct (api_get_ret e) as [x|]; cbn.
  2: { repeat split; [set_solver |].
       flat_trace. rewrite drop_app_length. repeat constructor. }
  destruct (zalloc_ok e); cbn.
  2: { repeat split; [set_solver |].
       flat_trace. rewrite drop_app_length. repeat constructor. }
  destruct (Z.ltb_spec (listen_ret e) 0) as [Hlt | Hs]; cbn.
  { repeat split; [set_solver |].
    flat_trace. rewrite drop_app_length. repeat constructor. exact Hlt. }
  exfalso.
  rewrite !andb_false_iff, !bool_decide_eq_false, !Z.leb_gt in Hno.
  destruct Hno as [[[[H | H] | H] | H] | H]; try lia; try discriminate;
    apply H; by eexists.
Qed.

Lemma load_failure_arms_nothing_witness :
  load_steps_ok (mk_load_env 0 None (Some 2%nat) true 0) = false
  /\ (wet_load_xwayland (mk_load_env 0 None (Some 2%nat) true 0)
                        (Some 0%nat) empty_world).1 = (-1, None).
Proof.
  split; [reflexivity |].
  destruct (load_failure_arms_nothing (mk_load_env 0 None (Some 2%nat) true 0)
              (Some 0%nat) empty_world eq_refl) as (Hr & _).
  exact Hr.
Defined.

(** ** Whole lives of helpers *)

Lemma run_app (l1 l2 : list input) (h : host) :
  run (l1 ++ l2) h = match run l1 h with
                     | Some h' => run l2 h'
                     | None => None
                     end.
Proof.
  revert h. induction l1 as [|i l1 IH]; intros h; cbn; [reflexivity |].
  destruct (step i h); [apply IH | reflexivity].
Qed.

(** One healthy life, from an idle supervisor. *)
Lemma life_run (c : helper_life) (h : host) :
  idle h -> spawns c ->
  exists h' evs,
    run (ready_then_exit c) h = Some h'
    /\ idle h'
    /\ trace (os h') = trace (os h) ++ evs
    /\ notifications evs = [Loaded; Gone]
    /\ client (sup h') = None.
Proof.
  intros (s & Ha & Hs & Hc & Hw) ([[sv0 sv1] Hsv] & [[wm0 wm1] Hwm] & H0 & H1).
  destruct h as [wxw w]. cbn [sup os] in Ha, Hs, Hc, Hw.
  unfold ready_then_exit, run, step. cbn [sup os].
  rewrite (spawn_parent_eq _ _ _ _ _ _ _ _ _ _ Hsv Hwm H0 H1).
  cbn [fst snd]. rewrite Ha, Hw. cbn [app].
  rewrite (deliver_consumes_recorded _ s)
    by (cbn; first [reflexivity | assumption]).
  rewrite reap_helper by (cbn; first [reflexivity | assumption]).
  cbn [sup os trace armed next_handle]. eexists. eexists.
  split; [reflexivity |]. cbn [sup os trace].
  split.
  { exists (next_handle w). cbn. repeat split. exact Hc. }
  split; [flat_trace; reflexivity |].
  split; reflexivity.
Qed.

(** X11: any number of helpers that each signal readiness before exiting: the
    xwayland module is told "loaded" and then "exited" once per helper, in
    that order, and between two helpers and at the end exactly one
    readiness subscription is armed and it is the recorded one. *)
Theorem healthy_lives_alternate :
  forall (cs : list helper_life) (h : host),
    idle h ->
    Forall spawns cs ->
    exists h' evs,
      run (concat (map ready_then_exit cs)) h = Some h'
      /\ idle h'
      /\ armed_subscriptions h' = 1%nat
      /\ trace (os h') = trace (os h) ++ evs
      /\ notifications evs = concat (map (fun _ => [Loaded; Gone]) cs).
Proof.
  induction cs as [|c cs IH]; intros h Hidle Hall.
  - exists h, []. cbn. rewrite app_nil_r. repeat split; try assumption.
    destruct Hidle as (s & Ha & _). unfold armed_subscriptions.
    rewrite Ha. reflexivity.
  - apply Forall_cons in Hall as [Hc Hall].
    destruct (life_run c h Hidle Hc) as (h1 & ev1 & Hrun1 & Hidle1 & Ht1 & Hn1 & _).
    destruct (IH h1 Hidle1 Hall) as (h2 & ev2 & Hrun2 & Hidle2 & Harm & Ht2 & Hn2).
    exists h2, (ev1 ++ ev2).
    cbn [map concat]. rewrite run_app, Hrun1, Hrun2.
    repeat split; try assumption.
    + rewrite Ht2, Ht1, app_assoc. reflexivity.
    + unfold notifications in *. rewrite omap_app, Hn1, Hn2. reflexivity.
Qed.

Lemma healthy_lives_alternate_witness :
  idle (mk_host (set_sigusr1_source (Some 4%nat) wxw_running)
                (mk_world ∅ [4%nat] 5 [] ∅ []))
  /\ Forall spawns [mk_life env_ok ":0" 0 11 0; mk_life env_ok ":0" 0 11 1]
  /\ exists h' evs,
       run (concat (map ready_then_exit
                        [mk_life env_ok ":0" 0 11 0;
                         mk_life env_ok ":0" 0 11 1]))
           (mk_host (set_sigusr1_source (Some 4%nat) wxw_running)
                    (mk_world ∅ [4%nat] 5 [] ∅ [])) = Some h'
       /\ armed_subscriptions h' = 1%nat
       /\ notifications evs = [Loaded; Gone; Loaded; Gone].
Proof.
  assert (Hidle : idle (mk_host (set_sigusr1_source (Some 4%nat) wxw_running)
                                (mk_world ∅ [4%nat] 5 [] ∅ []))).
  { exists 4%nat. cbn. repeat split. }
  assert (Hsp : forall st, spawns (mk_life env_ok ":0" 0 11 st)).
  { intros st. unfold spawns. cbn.
    repeat split; [by eexists | by eexists | lia | lia]. }
  assert (Hall : Forall spawns [mk_life env_ok ":0" 0 11 0;
                                mk_life env_ok ":0" 0 11 1]).
  { repeat constructor; apply Hsp. }
  split; [exact Hidle |]. split; [exact Hall |].
  destruct (healthy_lives_alternate _ _ Hidle Hall)
    as (h' & evs & Hrun & _ & Harm & _ & Hn).
  exists h', evs. repeat split; assumption.
Defined.

(** ** Invariants of the supervisor over arbitrary inputs *)















(** ** Descriptors on the command line *)

(** The calls of the child when no [dup] fails, up to the [execv] and what
    follows it. *)
Lemma xserver_child_trace e display abstract_fd unix_fd sv1 wm1 w :
  child_dups_ok e abstract_fd = true ->
  exists rest,
    trace (xserver_child e display abstract_fd unix_fd sv1 wm1 w).2 =
      trace w ++ child_setup e abstract_fd unix_fd sv1 wm1
        ++ [Execv (child_xserver e) (child_argv e display abstract_fd)]
        ++ rest
    /\ Forall (fun ev => match ev with
                         | Log _ | LogContinue _ | Exit_ _ => True
                         | _ => False
                         end) rest.
Proof.
  intros Hok.
  apply child_dups_ok_true in Hok as (Hs & Hu & Hw & Ha).
  unfold xserver_child, child_setup, child_argv, child_xserver, listen_args,
    build_argv.
  unfold_calls. rewrite Hs. cbn -[snprintf_d nl].
  destruct Ha as [Ha | [Ha Hd]]; rewrite Ha; cbn -[snprintf_d nl].
  - rewrite Hu. cbn -[snprintf_d nl]. rewrite Hw. cbn -[snprintf_d nl].
    destruct (config_disable_ac e) as [[|]|], (execv_error e) as [err|];
      cbn -[snprintf_d nl]; unfold_calls; cbn -[snprintf_d nl];
      (eexists; split; [flat_trace; reflexivity | repeat constructor]).
  - rewrite Hd. cbn -[snprintf_d nl]. rewrite Hu. cbn -[snprintf_d nl].
    rewrite Hw. cbn -[snprintf_d nl].
    destruct (config_disable_ac e) as [[|]|], (execv_error e) as [err|];
      cbn -[snprintf_d nl]; unfold_calls; cbn -[snprintf_d nl];
      (eexists; split; [flat_trace; reflexivity | repeat constructor]).
Qed.

(** The entries of the command line read back as the [dup] results. *)
Lemma child_argv_reads_back e display abstract_fd :
  child_dups_ok e abstract_fd = true ->
  dup_abstract e <= INT_MAX -> dup_unix e <= INT_MAX -> dup_wm e <= INT_MAX ->
  reads_back e abstract_fd
    (Execv (child_xserver e) (child_argv e display abstract_fd)).
Proof.
  intros Hok Ha Hu Hw.
  apply child_dups_ok_true in Hok as (Hs0 & Hu0 & Hw0 & Ha0).
  apply Z.ltb_ge in Hs0, Hu0, Hw0.
  assert (Hmin : INT_MIN <= 0) by (unfold INT_MIN; lia).
  unfold reads_back, child_argv, fixed_args, listen_args, parse_d.
  cbn -[snprintf_d INT_MAX].
  rewrite !snprintf_d_int by lia. rewrite !fmt_d_parse.
  repeat split.
  destruct Ha0 as [-> | [-> Hd]]; cbn -[snprintf_d]; [reflexivity |].
  apply Z.ltb_ge in Hd. split; [reflexivity |].
  rewrite snprintf_d_int by lia. apply fmt_d_parse.
Qed.

(** X16: when its [dup] calls succeed with descriptors in the range of an
    [int], the child branch of [spawn_xserver] attempts the [execv], and in
    the calls it makes every [setenv] sets WAYLAND_SOCKET to a string that
    reads back as the duplicate of the display pair's child end, and every
    [execv] has a vector whose entry 5 reads back as the duplicate of the
    unix socket, entry 7 as that of the window-manager pair's child end, and
    entries 9 and 10 are ["-listen"] and the duplicate of the abstract
    socket when one was given, and entry 9 is ["-nolisten"] otherwise. *)
Theorem child_argv_descriptors_read_back :
  forall e display abstract_fd unix_fd sv1 wm1 w,
    child_dups_ok e abstract_fd = true ->
    dup_sv e <= INT_MAX -> dup_abstract e <= INT_MAX ->
    dup_unix e <= INT_MAX -> dup_wm e <= INT_MAX ->
    let r := xserver_child e display abstract_fd unix_fd sv1 wm1 w in
    exists evs argv,
      trace r.2 = trace w ++ evs
      /\ Forall (reads_back e abstract_fd) evs
      /\ Setenv "WAYLAND_SOCKET" (snprintf_d 12 (dup_sv e)) ∈ evs
      /\ Execv (child_xserver e) argv ∈ evs.
Proof.
  intros e display abstract_fd unix_fd sv1 wm1 w Hok Hs Ha Hu Hw r. subst r.
  destruct (xserver_child_trace e display abstract_fd unix_fd sv1 wm1 w Hok)
    as (rest & Ht & Hrest).
  pose proof (child_argv_reads_back e display abstract_fd Hok Ha Hu Hw) as Hrb.
  pose proof Hok as Hok'.
  apply child_dups_ok_true in Hok' as (Hs0 & _).
  apply Z.ltb_ge in Hs0.
  assert (Hmin : INT_MIN <= 0) by (unfold INT_MIN; lia).
  eexists. exists (child_argv e display abstract_fd).
  split; [exact Ht |].
  split.
  { unfold child_setup. rewrite !Forall_app. repeat split.
    - repeat constructor. unfold parse_d.
      rewrite snprintf_d_int by lia. apply fmt_d_parse.
    - destruct (abstract_fd =? 0); repeat constructor.
    - repeat constructor.
    - constructor; [exact Hrb | constructor].
    - eapply Forall_impl; [exact Hrest |]. intros []; cbn; tauto. }
  split; [unfold child_setup; set_solver | set_solver].
Qed.

Lemma child_argv_descriptors_read_back_witness :
  child_dups_ok (env_child None) 5 = true
  /\ dup_sv (env_child None) <= INT_MAX
  /\ dup_abstract (env_child None) <= INT_MAX
  /\ dup_unix (env_child None) <= INT_MAX
  /\ dup_wm (env_child None) <= INT_MAX
  /\ exists evs,
       trace (xserver_child (env_child None) ":0" 5 11 4 6 empty_world).2
         = trace empty_world ++ evs
       /\ Forall (reads_back (env_child None) 5) evs.
Proof.
  assert (Hs : dup_sv (env_child None) <= INT_MAX)
    by (vm_compute; discriminate).
  assert (Ha : dup_abstract (env_child None) <= INT_MAX)
    by (vm_compute; discriminate).
  assert (Hu : dup_unix (env_child None) <= INT_MAX)
    by (vm_compute; discriminate).
  assert (Hw : dup_wm (env_child None) <= INT_MAX)
    by (vm_compute; discriminate).
  split; [reflexivity |]. repeat (split; [assumption |]).
  destruct (child_argv_descriptors_read_back (env_child None) ":0" 5 11 4 6
              empty_world eq_refl Hs Ha Hu Hw)
    as (evs & argv & Ht & Hf & _).
  exists evs. split; assumption.
Defined.

(** ** Helpers that never signal *)

Lemma silent_life_run (c : helper_life) (h : host) :
  settled h -> spawns c ->
  exists h',
    run (silent_exit c) h = Some h'
    /\ settled h'
    /\ armed (os h') = armed (os h) ++ [next_handle (os h)]
    /\ sigusr1_source (sup h') = Some (next_handle (os h)).
Proof.
  intros (Hc & Hw) ([[sv0 sv1] Hsv] & [[wm0 wm1] Hwm] & H0 & H1).
  destruct h as [wxw w]. cbn [sup os] in *.
  unfold silent_exit, run, step. cbn [sup os].
  rewrite (spawn_parent_eq _ _ _ _ _ _ _ _ _ _ Hsv Hwm H0 H1).
  cbn [fst snd]. rewrite Hw. cbn [app].
  rewrite reap_helper by (cbn; first [reflexivity | assumption]).
  eexists. split; [reflexivity |]. cbn.
  repeat split. exact Hc.
Qed.

(** X17: every helper that exits without having signalled readiness leaves one
    more subscription armed: after [n] such helpers in a row there are [n]
    more than before, and the struct records the newest. *)
Theorem silent_exits_accumulate_subscriptions :
  forall (cs : list helper_life) (h : host),
    settled h ->
    Forall spawns cs ->
    exists h',
      run (concat (map silent_exit cs)) h = Some h'
      /\ settled h'
      /\ armed_subscriptions h' = (armed_subscriptions h + length cs)%nat
      /\ armed (os h) `prefix_of` armed (os h').
Proof.
  induction cs as [|c cs IH]; intros h Hset Hall.
  - exists h. cbn. repeat split; try apply Hset; [lia | done].
  - apply Forall_cons in Hall as [Hc Hall].
    destruct (silent_life_run c h Hset Hc) as (h1 & Hrun1 & Hset1 & Ha1 & _).
    destruct (IH h1 Hset1 Hall) as (h2 & Hrun2 & Hset2 & Hn2 & Hp2).
    exists h2. cbn [map concat]. rewrite run_app, Hrun1, Hrun2.
    repeat split; try apply Hset2.
    + rewrite Hn2. unfold armed_subscriptions. rewrite Ha1, length_app.
      cbn. lia.
    + etrans; [| exact Hp2]. rewrite Ha1. by apply prefix_app_r.
Qed.

Lemma silent_exits_accumulate_subscriptions_witness :
  settled (mk_host (set_sigusr1_source (Some 4%nat) wxw_running)
                   (mk_world ∅ [4%nat] 5 [] ∅ []))
  /\ Forall spawns [mk_life env_ok ":0" 0 11 0; mk_life env_ok ":0" 0 11 1]
  /\ exists h',
       run (concat (map silent_exit
                        [mk_life env_ok ":0" 0 11 0;
                         mk_life env_ok ":0" 0 11 1]))
           (mk_host (set_sigusr1_source (Some 4%nat) wxw_running)
                    (mk_world ∅ [4%nat] 5 [] ∅ [])) = Some h'
       /\ armed_subscriptions h' = 3%nat.
Proof.
  assert (Hset : settled (mk_host (set_sigusr1_source (Some 4%nat) wxw_running)
                                  (mk_world ∅ [4%nat] 5 [] ∅ [])))
    by (split; reflexivity).
  assert (Hsp : forall st, spawns (mk_life env_ok ":0" 0 11 st)).
  { intros st. unfold spawns. cbn.
    repeat split; [by eexists | by eexists | lia | lia]. }
  assert (Hall : Forall spawns [mk_life env_ok ":0" 0 11 0;
                                mk_life env_ok ":0" 0 11 1])
    by (repeat constructor; apply Hsp).
  split; [exact Hset |]. split; [exact Hall |].
  destruct (silent_exits_accumulate_subscriptions _ _ Hset Hall)
    as (h' & Hrun & _ & Hn & _).
  exists h'. split; [exact Hrun | exact Hn].
Defined.

(** ** What the caller can tell from the return value *)





(** ** The handler in a supervisor with two subscriptions *)

